(** * Text-handwriting: the API route handlers and the media-store adapter

    A shallow embedding of

    - [lib/cloudinary.js]               (module [Cloudinary]),
    - [pages/api/images/index.js]       (module [ImagesIndex]),
    - [pages/api/images/[...id].js]     (module [ImagesId]),
    - the event handlers of [pages/index.jsx] and [pages/images.jsx]
                                        (module [Client]),

    together with the properties of the request/response contract.

    The text-to-handwriting renderer ([handwritten.js]) and the remote media
    API (the Cloudinary SDK) are external collaborators.  They are taken as
    parameters: a record [Services] of arbitrary, possibly failing, possibly
    stateful operations.  Every handler is a computation in a small monad
    that threads the collaborators' state, propagates thrown values, and
    records, in order, every collaborator call with its outcome, every
    [console.error] and every response written to [res]. *)

From Stdlib Require Import String List Bool ZArith.
From Stdlib Require Import DecimalString.
Import ListNotations.
Local Open Scope string_scope.

(** ** JavaScript values *)

(** The values that travel through the handlers: parsed JSON bodies, the
    results and errors of the collaborators, response bodies.  Numbers are
    carried as integers; no handler inspects one.  [JError] stands for an
    [Error] object with its [name] and [message]. *)
#[warnings="-register-all"]
Inductive JsVal : Type :=
| JUndefined
| JNull
| JBool (b : bool)
| JNum (n : Z)
| JStr (s : string)
| JArr (elems : list JsVal)
| JObj (props : list (string * JsVal))
| JError (name message : string).

(** [ToBoolean], as used by [!x] and [x ? a : b]. *)
Definition ToBoolean (v : JsVal) : bool :=
  match v with
  | JUndefined | JNull => false
  | JBool b => b
  | JNum n => negb (Z.eqb n 0)
  | JStr s => negb (String.eqb s "")
  | JArr _ | JObj _ | JError _ _ => true
  end.

(** Own-property lookup in an object literal: the first binding of the key,
    [undefined] when there is none. *)
Fixpoint lookup (k : string) (props : list (string * JsVal)) : JsVal :=
  match props with
  | [] => JUndefined
  | (k', v) :: rest => if String.eqb k k' then v else lookup k rest
  end.

(** [v[k]] for a data property [k] of a value that is neither [null] nor
    [undefined]. *)
Definition getProp (v : JsVal) (k : string) : JsVal :=
  match v with
  | JObj props => lookup k props
  | JStr s => if String.eqb k "length" then JNum (Z.of_nat (String.length s)) else JUndefined
  | JArr l => if String.eqb k "length" then JNum (Z.of_nat (List.length l)) else JUndefined
  | JError n m =>
      if String.eqb k "name" then JStr n
      else if String.eqb k "message" then JStr m
      else JUndefined
  | _ => JUndefined
  end.

(** ** Requests *)

(** A value of [req.query] ([NextApiRequest]): a string, an array of strings
    (the segments matched by a catch-all route), or absent. *)
Inductive QueryValue : Type :=
| QUndefined
| QString (s : string)
| QArray (segments : list string).

Record Request : Type := mkRequest {
  method : string;
  query : list (string * QueryValue);
  body : JsVal
}.

Fixpoint queryGet (k : string) (q : list (string * QueryValue)) : QueryValue :=
  match q with
  | [] => QUndefined
  | (k', v) :: rest => if String.eqb k k' then v else queryGet k rest
  end.

(** [ToBoolean] on a query value: [undefined] and the empty string are falsy,
    every array is truthy. *)
Definition truthy (id : QueryValue) : bool :=
  match id with
  | QUndefined => false
  | QString s => negb (String.eqb s "")
  | QArray _ => true
  end.

(** ** The collaborators *)

(** Options of [handwritten(text, {ruled, outputType, inkColor})]. *)
Record HandwrittenOptions : Type := mkHandwrittenOptions {
  ruled : JsVal;
  outputType : string;
  inkColor : JsVal
}.

(** Options of [cloudinary.api.resources]. *)
Record ResourcesOptions : Type := mkResourcesOptions {
  ro_type : string;
  ro_prefix : string;
  ro_resource_type : string
}.

(** Options of [cloudinary.uploader.upload]; [folder: null] is [None]. *)
Record UploadOptions : Type := mkUploadOptions {
  uo_folder : option string;
  uo_public_id : JsVal;
  uo_resource_type : string
}.

(** Options of [cloudinary.api.delete_resources]. *)
Record DeleteOptions : Type := mkDeleteOptions {
  do_resource_type : string
}.

(** How a promise settles. *)
Inductive Settled (A : Type) : Type :=
| Resolved (v : A)
| Rejected (e : JsVal).
Arguments Resolved {A} v.
Arguments Rejected {A} e.

(** The external operations, over an arbitrary state [S] of the outside
    world.  [handwritten] resolves to the array of page images. *)
Record Services (S : Type) : Type := mkServices {
  handwritten : JsVal -> HandwrittenOptions -> S -> Settled (list JsVal) * S;
  api_resources : ResourcesOptions -> S -> Settled JsVal * S;
  uploader_upload : JsVal -> UploadOptions -> S -> Settled JsVal * S;
  api_delete_resources : list QueryValue -> DeleteOptions -> S -> Settled JsVal * S
}.
Arguments handwritten {S} _ _ _ _.
Arguments api_resources {S} _ _ _.
Arguments uploader_upload {S} _ _ _ _.
Arguments api_delete_resources {S} _ _ _ _.

(** ** Observable events *)

Inductive Call : Type :=
| CRender (text : JsVal) (opts : HandwrittenOptions)
| CResources (opts : ResourcesOptions)
| CUpload (file : JsVal) (opts : UploadOptions)
| CDelete (ids : list QueryValue) (opts : DeleteOptions).

Inductive Event : Type :=
| Called (c : Call) (outcome : Settled JsVal)
| Logged (e : JsVal)
| Responded (status : nat) (body : JsVal).

(** ** The handler monad *)

Inductive Completion (A : Type) : Type :=
| Normal (a : A)
| Throw (e : JsVal).
Arguments Normal {A} a.
Arguments Throw {A} e.

Definition M (S A : Type) : Type := S -> Completion A * S * list Event.

Definition ret {S A} (a : A) : M S A := fun s => (Normal a, s, []).

Definition throw {S A} (e : JsVal) : M S A := fun s => (Throw e, s, []).

Definition bind {S A B} (m : M S A) (k : A -> M S B) : M S B :=
  fun s =>
    match m s with
    | (Normal a, s1, t1) =>
        match k a s1 with
        | (r, s2, t2) => (r, s2, (t1 ++ t2)%list)
        end
    | (Throw e, s1, t1) => (Throw e, s1, t1)
    end.

(** [try { m } catch (error) { h error }]. *)
Definition try_catch {S A} (m : M S A) (h : JsVal -> M S A) : M S A :=
  fun s =>
    match m s with
    | (Normal a, s1, t1) => (Normal a, s1, t1)
    | (Throw e, s1, t1) =>
        match h e s1 with
        | (r, s2, t2) => (r, s2, (t1 ++ t2)%list)
        end
    end.

Definition emit {S} (ev : Event) : M S unit := fun s => (Normal tt, s, [ev]).

(** [await op(...)]: the call is recorded with its outcome; a rejection is
    thrown at the [await]. *)
Definition await {S A} (c : Call) (inj : A -> JsVal)
    (op : S -> Settled A * S) : M S A :=
  fun s =>
    match op s with
    | (Resolved v, s1) => (Normal v, s1, [Called c (Resolved (inj v))])
    | (Rejected e, s1) => (Throw e, s1, [Called c (Rejected e)])
    end.

Declare Scope js_scope.
Delimit Scope js_scope with js.
Notation "x <- m ;; k" := (bind m (fun x => k))
  (at level 100, m at next level, right associativity) : js_scope.
Notation "m ;;; k" := (bind m (fun _ => k))
  (at level 100, right associativity) : js_scope.
Local Open Scope js_scope.

(** [console.error(error)]. *)
Definition console_error {S} (e : JsVal) : M S unit := emit (Logged e).

(** [res.status(code).json(body)]. *)
Definition res_status_json {S} (code : nat) (b : JsVal) : M S unit :=
  emit (Responded code b).

(** Running a handler from a state of the outside world. *)
Definition completion {S A} (r : Completion A * S * list Event) : Completion A :=
  fst (fst r).
Definition final {S A} (r : Completion A * S * list Event) : S := snd (fst r).
Definition trace {S A} (r : Completion A * S * list Event) : list Event := snd r.

(** ** lib/cloudinary.js *)

Module Cloudinary.

Definition CLOUDINARY_FOLDER_NAME : string := "text-to-handwriting/".

(** The argument of [handleCloudinaryUpload]:
    [{file; publicId?; folder?}]. *)
Record Resource : Type := mkResource {
  file : JsVal;
  publicId : JsVal;
  folder : JsVal
}.

Section Adapter.
Context {S : Type}.
Variable sdk : Services S.

Definition handleGetCloudinaryUploads : M S JsVal :=
  let opts := {| ro_type := "upload";
                 ro_prefix := CLOUDINARY_FOLDER_NAME;
                 ro_resource_type := "image" |} in
  await (CResources opts) (fun v => v) (api_resources sdk opts).

Definition handleCloudinaryUpload (resource : Resource) : M S JsVal :=
  let opts := {| uo_folder := if ToBoolean (folder resource)
                              then Some CLOUDINARY_FOLDER_NAME else None;
                 uo_public_id := publicId resource;
                 uo_resource_type := "auto" |} in
  await (CUpload (file resource) opts) (fun v => v)
        (uploader_upload sdk (file resource) opts).

Definition handleCloudinaryDelete (ids : list QueryValue) : M S JsVal :=
  let opts := {| do_resource_type := "image" |} in
  await (CDelete ids opts) (fun v => v) (api_delete_resources sdk ids opts).
End Adapter.

End Cloudinary.

(** ** pages/api/images/index.js *)

Module ImagesIndex.

(** [const { text, color, ruled } = body]: throws a [TypeError] on [null] and
    [undefined], reads the three properties otherwise. *)
Definition destructureBody {S} (b : JsVal) : M S (JsVal * JsVal * JsVal) :=
  match b with
  | JUndefined =>
      throw (JError "TypeError"
        "Cannot destructure property 'text' of 'body' as it is undefined.")
  | JNull =>
      throw (JError "TypeError"
        "Cannot destructure property 'text' of 'body' as it is null.")
  | _ => ret (getProp b "text", getProp b "color", getProp b "ruled")
  end.

(** [const [base64Image] = pages]: the first element, [undefined] for the
    empty array. *)
Definition firstOf (pages : list JsVal) : JsVal :=
  match pages with
  | [] => JUndefined
  | p :: _ => p
  end.

Section Route.
Context {S : Type}.
Variable sdk : Services S.

Definition handleGetRequest : M S JsVal :=
  result <- Cloudinary.handleGetCloudinaryUploads sdk ;;
  ret result.

Definition handlePostRequest (b : JsVal) : M S JsVal :=
  tcr <- destructureBody b ;;
  let '(text, color, ruled) := tcr in
  let opts := {| ruled := ruled; outputType := "png/b64"; inkColor := color |} in
  pages <- await (CRender text opts) JArr (handwritten sdk text opts) ;;
  let base64Image := firstOf pages in
  uploadResponse <- Cloudinary.handleCloudinaryUpload sdk
    {| Cloudinary.file := base64Image;
       Cloudinary.publicId := JUndefined;
       Cloudinary.folder := JBool true |} ;;
  ret uploadResponse.

Definition handler (req : Request) : M S unit :=
  if String.eqb (method req) "GET" then
    try_catch
      (result <- handleGetRequest ;;
       res_status_json 200 (JObj [("message", JStr "Success"); ("result", result)]))
      (fun error =>
         console_error error ;;;
         res_status_json 400 (JObj [("message", JStr "Error"); ("error", error)]))
  else if String.eqb (method req) "POST" then
    try_catch
      (result <- handlePostRequest (body req) ;;
       res_status_json 201 (JObj [("message", JStr "Success"); ("result", result)]))
      (fun error =>
         console_error error ;;;
         res_status_json 400 (JObj [("message", JStr "Error"); ("error", error)]))
  else
    res_status_json 405 (JObj [("message", JStr "Method not allowed")]).
End Route.

End ImagesIndex.

(** ** pages/api/images/[...id].js *)

Module ImagesId.

(** [if (Array.isArray(id)) id = id.join("/")]. *)
Definition joinId (id : QueryValue) : QueryValue :=
  match id with
  | QArray segments => QString (String.concat "/" segments)
  | _ => id
  end.

Section Route.
Context {S : Type}.
Variable sdk : Services S.

Definition handleDeleteRequest (id : QueryValue) : M S JsVal :=
  result <- Cloudinary.handleCloudinaryDelete sdk [id] ;;
  ret result.

Definition handler (req : Request) : M S unit :=
  let id := queryGet "id" (query req) in
  if negb (truthy id) then
    res_status_json 400 (JObj [("error", JStr "Missing id")])
  else
    let id := joinId id in
    if String.eqb (method req) "DELETE" then
      try_catch
        (result <- handleDeleteRequest id ;;
         res_status_json 200 (JObj [("message", JStr "Success"); ("result", result)]))
        (fun error =>
           console_error error ;;;
           res_status_json 400 (JObj [("message", JStr "Error"); ("error", error)]))
    else
      res_status_json 405 (JObj [("message", JStr "Method not allowed")]).
End Route.

End ImagesId.

(** ** The two routes *)

(** File-based routing: [/api/images] is served by [index.js],
    [/api/images/:id] (one or more segments) by [[...id].js]. *)
Inductive Route : Type :=
| ApiImages
| ApiImagesId.

Definition serve {S} (sdk : Services S) (route : Route) (req : Request) : M S unit :=
  match route with
  | ApiImages => ImagesIndex.handler sdk req
  | ApiImagesId => ImagesId.handler sdk req
  end.

(** ** Reading a trace *)

Definition calls (t : list Event) : list Call :=
  flat_map (fun ev => match ev with Called c _ => [c] | _ => [] end) t.

Definition responses (t : list Event) : list (nat * JsVal) :=
  flat_map (fun ev => match ev with Responded code b => [(code, b)] | _ => [] end) t.

Definition isRender (c : Call) : bool :=
  match c with CRender _ _ => true | _ => false end.

Definition isUpload (c : Call) : bool :=
  match c with CUpload _ _ => true | _ => false end.

Definition isDelete (c : Call) : bool :=
  match c with CDelete _ _ => true | _ => false end.

(** The handler reached the renderer. *)
Definition rendered (t : list Event) : bool := existsb isRender (calls t).

(** The files handed to the remote store. *)
Definition uploadedFiles (t : list Event) : list JsVal :=
  flat_map (fun c => match c with CUpload f _ => [f] | _ => [] end) (calls t).

Definition is2xx (code : nat) : bool := (200 <=? code)%nat && (code <? 300)%nat.

(** ** Shapes named by the specification *)

(** [{message: "Success", result}]. *)
Definition successBody (result : JsVal) : JsVal :=
  JObj [("message", JStr "Success"); ("result", result)].

(** [{message: "Error", error}]. *)
Definition errorBody (error : JsVal) : JsVal :=
  JObj [("message", JStr "Error"); ("error", error)].

Definition isErrorBody (b : JsVal) : bool :=
  match b with
  | JObj [(k1, JStr m); (k2, _)] =>
      String.eqb k1 "message" && String.eqb m "Error" && String.eqb k2 "error"
  | _ => false
  end.

(** The input constraints of [create(text, color, ruled)] in the
    specification's words: text non-empty, color one of black, red, blue,
    ruled a boolean.  The handlers never evaluate this predicate. *)
Definition specAllowedColor (c : JsVal) : bool :=
  match c with
  | JStr s => String.eqb s "black" || String.eqb s "red" || String.eqb s "blue"
  | _ => false
  end.

Definition specNonEmptyText (t : JsVal) : bool :=
  match t with
  | JStr s => negb (String.eqb s "")
  | _ => false
  end.

Definition specIsBoolean (r : JsVal) : bool :=
  match r with
  | JBool _ => true
  | _ => false
  end.

Definition specCreateInputsValid (b : JsVal) : bool :=
  specNonEmptyText (getProp b "text")
  && specAllowedColor (getProp b "color")
  && specIsBoolean (getProp b "ruled").

(** [null] or [undefined]: the bodies that cannot be destructured. *)
Definition nullish (v : JsVal) : bool :=
  match v with
  | JUndefined | JNull => true
  | _ => false
  end.

(** The options the handlers are expected to pass. *)
Definition renderOptions (b : JsVal) : HandwrittenOptions :=
  {| ruled := getProp b "ruled"; outputType := "png/b64"; inkColor := getProp b "color" |}.

Definition namespaceUpload : UploadOptions :=
  {| uo_folder := Some "text-to-handwriting/";
     uo_public_id := JUndefined;
     uo_resource_type := "auto" |}.

Definition namespaceListing : ResourcesOptions :=
  {| ro_type := "upload"; ro_prefix := "text-to-handwriting/"; ro_resource_type := "image" |}.

Definition imageDeletion : DeleteOptions := {| do_resource_type := "image" |}.

(** ** A concrete outside world

    An in-memory media store and a two-page renderer, used to run the
    handlers on concrete requests.  The store keeps the uploaded files under
    [folder ++ "img" ++ n]; it can be switched off, in which case every remote
    call is rejected.  The renderer refuses a text that is not a non-empty
    string and an ink color it does not know. *)
Module Demo.

Record World : Type := mkWorld {
  online : bool;
  items : list (string * JsVal);
  next : nat
}.

Definition empty : World := {| online := true; items := []; next := 0 |}.
Definition offline : World := {| online := false; items := []; next := 0 |}.

Definition unavailable : JsVal := JError "Error" "connect ECONNREFUSED".
Definition invalidArguments : JsVal := JError "Error" "Invalid arguments!".

Definition describe (it : string * JsVal) : JsVal :=
  JObj [("public_id", JStr (fst it))].

Definition render (text : JsVal) (opts : HandwrittenOptions) (w : World)
  : Settled (list JsVal) * World :=
  if specNonEmptyText text && specAllowedColor (inkColor opts)
  then (Resolved [JStr "cGFnZTE="; JStr "cGFnZTI="], w)
  else (Rejected invalidArguments, w).

Definition resources (opts : ResourcesOptions) (w : World) : Settled JsVal * World :=
  if online w
  then (Resolved (JObj [("resources",
          JArr (map describe
                  (filter (fun it => String.prefix (ro_prefix opts) (fst it)) (items w))))]), w)
  else (Rejected unavailable, w).

Definition upload (f : JsVal) (opts : UploadOptions) (w : World) : Settled JsVal * World :=
  if online w
  then
    let dir := match uo_folder opts with Some d => d | None => "" end in
    let id := dir ++ "img" ++ NilEmpty.string_of_uint (Nat.to_uint (next w)) in
    (Resolved (JObj [("public_id", JStr id)]),
     {| online := true; items := (items w ++ [(id, f)])%list; next := Datatypes.S (next w) |})
  else (Rejected unavailable, w).

Definition named (ids : list QueryValue) (it : string * JsVal) : bool :=
  existsb (fun q => match q with QString s => String.eqb s (fst it) | _ => false end) ids.

Definition delete_resources (ids : list QueryValue) (opts : DeleteOptions) (w : World)
  : Settled JsVal * World :=
  if online w
  then (Resolved (JObj [("deleted", JArr (map describe (filter (named ids) (items w))))]),
        {| online := true;
           items := filter (fun it => negb (named ids it)) (items w);
           next := next w |})
  else (Rejected unavailable, w).

Definition sdk : Services World :=
  {| handwritten := render;
     api_resources := resources;
     uploader_upload := upload;
     api_delete_resources := delete_resources |}.

Definition post (b : JsVal) : Request :=
  {| method := "POST"; query := []; body := b |}.

Definition get : Request :=
  {| method := "GET"; query := []; body := JUndefined |}.

Definition delete (id : QueryValue) : Request :=
  {| method := "DELETE"; query := [("id", id)]; body := JUndefined |}.

Definition note (color : string) : JsVal :=
  JObj [("text", JStr "Dear diary"); ("color", JStr color); ("ruled", JBool true)].

End Demo.

(** The values handed to [console.error] by a route handler. *)
Definition logged (t : list Event) : list JsVal :=
  flat_map (fun ev => match ev with Logged e => [e] | _ => [] end) t.

(** ** The pages: pages/index.jsx and pages/images.jsx

    The event handlers of the two pages, over an arbitrary browser: [fetch]
    and [URL.createObjectURL] are parameters.  A handler is a computation
    that records, in order, the React state updates, the [fetch] calls with
    their outcome, the [console.error] calls, the navigation and the DOM
    operations on the download anchor.  The page runs on React 17: a state
    setter called from an event handler is rendered after the handler's
    synchronous part; called after an [await] it is rendered at once.
    Changing [loading] or [submitting] only switches blocks and [disabled]
    flags, which cannot throw; a new list of images can make the render
    throw. *)
Module Client.

Inductive Blob : Type :=
| mkBlob (content : string).

(** What [fetch] resolves to: [response.ok] and how [response.json()] and
    [response.blob()] settle. *)
Record Response : Type := mkResponse {
  ok : bool;
  json : Settled JsVal;
  blob : Settled Blob
}.

(** The second argument of [fetch].  [init_body] is the value whose
    [JSON.stringify] text is sent. *)
Record Init : Type := mkInit {
  init_method : option string;
  init_body : option JsVal;
  init_headers : list (string * string)
}.

Record Browser (S : Type) : Type := mkBrowser {
  fetch : JsVal -> Init -> S -> Settled Response * S;
  createObjectURL : Blob -> S -> string * S
}.
Arguments fetch {S} _ _ _ _.
Arguments createObjectURL {S} _ _ _.

Inductive UiEvent : Type :=
| PreventDefault
| SetSubmitting (b : bool)
| SetLoading (b : bool)
| SetImages (v : JsVal)
| Fetched (input : JsVal) (init : Init) (outcome : Settled Response)
| ConsoleError (e : JsVal)
| RouterPush (path : string)
| AnchorAppended (href download : string)
| AnchorClicked
| AnchorRemoved.

Definition UI (S A : Type) : Type := S -> Completion A * S * list UiEvent.

Definition pure {S A} (a : A) : UI S A := fun s => (Normal a, s, []).

Definition raise {S A} (e : JsVal) : UI S A := fun s => (Throw e, s, []).

Definition andThen {S A B} (m : UI S A) (k : A -> UI S B) : UI S B :=
  fun s =>
    match m s with
    | (Normal a, s1, t1) =>
        match k a s1 with
        | (r, s2, t2) => (r, s2, (t1 ++ t2)%list)
        end
    | (Throw e, s1, t1) => (Throw e, s1, t1)
    end.

(** [try { m } catch (error) { h error } finally { f }]: [f] runs on every
    path; the completion is that of [m] or of [h], unless [f] throws. *)
Definition try_catch_finally {S A} (m : UI S A) (h : JsVal -> UI S A) (f : UI S unit)
  : UI S A :=
  fun s =>
    match
      match m s with
      | (Normal a, s1, t1) => (Normal a, s1, t1)
      | (Throw e, s1, t1) =>
          match h e s1 with
          | (r, s2, t2) => (r, s2, (t1 ++ t2)%list)
          end
      end
    with
    | (r, s1, t1) =>
        match f s1 with
        | (Normal _, s2, t2) => (r, s2, (t1 ++ t2)%list)
        | (Throw e, s2, t2) => (Throw e, s2, (t1 ++ t2)%list)
        end
    end.

Definition ui {S} (ev : UiEvent) : UI S unit := fun s => (Normal tt, s, [ev]).

(** [fetch(input, init)] without [await]: the request is issued and the
    promise is left pending.  The call is recorded when it is made, together
    with the way its promise will settle. *)
Definition issueFetch {S} (b : Browser S) (input : JsVal) (init : Init)
  : UI S (Settled Response) :=
  fun s =>
    match fetch b input init s with
    | (outcome, s1) => (Normal outcome, s1, [Fetched input init outcome])
    end.

(** [await fetch(input, init)]. *)
Definition awaitFetch {S} (b : Browser S) (input : JsVal) (init : Init) : UI S Response :=
  fun s =>
    match fetch b input init s with
    | (Resolved r, s1) => (Normal r, s1, [Fetched input init (Resolved r)])
    | (Rejected e, s1) => (Throw e, s1, [Fetched input init (Rejected e)])
    end.

(** [await p] for a promise that has settled. *)
Definition awaitSettled {S A} (p : Settled A) : UI S A :=
  match p with
  | Resolved v => pure v
  | Rejected e => raise e
  end.

(** [v.k]: a [TypeError] on [null] and [undefined]. *)
Definition member {S} (v : JsVal) (k : string) : UI S JsVal :=
  match v with
  | JUndefined =>
      raise (JError "TypeError"
               ("Cannot read properties of undefined (reading '" ++ k ++ "')"))
  | JNull =>
      raise (JError "TypeError"
               ("Cannot read properties of null (reading '" ++ k ++ "')"))
  | _ => pure (getProp v k)
  end.

(** [formData.get(name)] on a form without file inputs: a string, or [null]
    when the form has no such entry. *)
Definition FormData : Type := string -> option string.

Definition entry (v : option string) : JsVal :=
  match v with
  | Some s => JStr s
  | None => JNull
  end.

(** [v === "on"]. *)
Definition isOn (v : option string) : bool :=
  match v with
  | Some s => String.eqb s "on"
  | None => false
  end.

Notation "x <~ m ;; k" := (andThen m (fun x => k))
  (at level 100, m at next level, right associativity) : js_scope.
Notation "m ;;> k" := (andThen m (fun _ => k))
  (at level 100, right associativity) : js_scope.

Section Pages.
Context {S : Type}.
Variable browser : Browser S.
Variable rendering : JsVal -> option JsVal.

(** pages/index.jsx *)
Definition handleFormSubmit (formData : FormData) : UI S unit :=
  ui PreventDefault ;;>
  try_catch_finally
    (ui (SetSubmitting true) ;;>
     response <~ awaitFetch browser (JStr "/api/images")
       {| init_method := Some "POST";
          init_body := Some (JObj [("text", entry (formData "text"));
                                   ("color", entry (formData "color"));
                                   ("ruled", JBool (isOn (formData "ruled")))]);
          init_headers := [("Content-Type", "application/json")] |} ;;
     data <~ awaitSettled (json response) ;;
     if negb (ok response) then raise data
     else ui (RouterPush "/images"))
    (fun error => ui (ConsoleError error))
    (ui (SetSubmitting false)).

(** pages/images.jsx *)

(** What rendering the page with a new list of images throws, if anything.
    The render reads [images.length] first, a [TypeError] on [null] and
    [undefined]; how any other list renders (the items, [next/image]) is the
    parameter [rendering]. *)
Definition rerender (images : JsVal) : option JsVal :=
  match images with
  | JUndefined =>
      Some (JError "TypeError" "Cannot read properties of undefined (reading 'length')")
  | JNull =>
      Some (JError "TypeError" "Cannot read properties of null (reading 'length')")
  | _ => rendering images
  end.

(** [setImages(v)] after an [await], outside any event handler: React
    renders the page at once, inside the call, and what the render throws is
    thrown by the call. *)
Definition setImages (v : JsVal) : UI S unit :=
  ui (SetImages v) ;;>
  match rerender v with
  | Some e => raise e
  | None => pure tt
  end.

Definition getImages : UI S unit :=
  try_catch_finally
    (ui (SetLoading true) ;;>
     response <~ awaitFetch browser (JStr "/api/images")
       {| init_method := Some "GET"; init_body := None; init_headers := [] |} ;;
     data <~ awaitSettled (json response) ;;
     if negb (ok response) then raise data
     else
       result <~ member data "result" ;;
       resources <~ member result "resources" ;;
       setImages resources)
    (fun error => ui (ConsoleError error))
    (ui (SetLoading false)).

(** [getImages()] called without [await] runs up to its first [await]:
    [setLoading(true)], then the request is issued.  The caller goes on with
    the promise pending. *)
Definition getImagesStart : UI S (Settled Response) :=
  ui (SetLoading true) ;;>
  issueFetch browser (JStr "/api/images")
    {| init_method := Some "GET"; init_body := None; init_headers := [] |}.

(** The rest of [getImages], from its first [await] on, once the promise has
    settled. *)
Definition getImagesResume (pending : Settled Response) : UI S unit :=
  try_catch_finally
    (response <~ awaitSettled pending ;;
     data <~ awaitSettled (json response) ;;
     if negb (ok response) then raise data
     else
       result <~ member data "result" ;;
       resources <~ member result "resources" ;;
       setImages resources)
    (fun error => ui (ConsoleError error))
    (ui (SetLoading false)).

Definition handleDownloadResource (url : JsVal) : UI S unit :=
  try_catch_finally
    (ui (SetLoading true) ;;>
     response <~ awaitFetch browser url
       {| init_method := None; init_body := None; init_headers := [] |} ;;
     if ok response then
       blob <~ awaitSettled (blob response) ;;
       fileUrl <~ (fun s => match createObjectURL browser blob s with
                            | (u, s1) => (Normal u, s1, [])
                            end) ;;
       ui (AnchorAppended fileUrl "my-virtual-tag.png") ;;>
       ui AnchorClicked ;;>
       ui AnchorRemoved
     else
       data <~ awaitSettled (json response) ;;
       raise data)
    (fun error => ui (ConsoleError error))
    (ui (SetLoading false)).

(** [getImages()] is called without [await]: its beginning runs inside the
    [try], before the [finally]; its remainder runs after [handleDelete] has
    returned.  The result is the promise left pending, if the refresh was
    started. *)
Definition handleDelete (id : string) : UI S (option (Settled Response)) :=
  try_catch_finally
    (ui (SetLoading true) ;;>
     response <~ awaitFetch browser (JStr ("/api/images/" ++ id))
       {| init_method := Some "DELETE"; init_body := None; init_headers := [] |} ;;
     data <~ awaitSettled (json response) ;;
     if negb (ok response) then raise data
     else
       pending <~ getImagesStart ;;
       pure (Some pending))
    (fun error => pure None)
    (ui (SetLoading false)).
End Pages.

(** The three conditional blocks of the images page, as functions of the
    [loading] flag and of [images.length]:
    [images.length > 0], [!loading && images.length === 0] and
    [loading && images.length === 0]. *)
Definition showsGallery (loading : bool) (count : nat) : bool := (0 <? count)%nat.

Definition showsNoImages (loading : bool) (count : nat) : bool :=
  negb loading && (count =? 0)%nat.

Definition showsLoading (loading : bool) (count : nat) : bool :=
  loading && (count =? 0)%nat.

(** Reading a page's run. *)
Definition result {S A} (r : Completion A * S * list UiEvent) : Completion A :=
  fst (fst r).

Definition events {S A} (r : Completion A * S * list UiEvent) : list UiEvent := snd r.

Definition fetches (t : list UiEvent) : list (JsVal * Init) :=
  flat_map (fun ev => match ev with Fetched i n _ => [(i, n)] | _ => [] end) t.

Definition consoleErrors (t : list UiEvent) : list JsVal :=
  flat_map (fun ev => match ev with ConsoleError e => [e] | _ => [] end) t.

Definition navigations (t : list UiEvent) : list string :=
  flat_map (fun ev => match ev with RouterPush p => [p] | _ => [] end) t.

Definition imagesSet (t : list UiEvent) : list JsVal :=
  flat_map (fun ev => match ev with SetImages v => [v] | _ => [] end) t.

(** The body [handleFormSubmit] sends. *)
Definition formBody (formData : FormData) : JsVal :=
  JObj [("text", entry (formData "text"));
        ("color", entry (formData "color"));
        ("ruled", JBool (isOn (formData "ruled")))].

(** A browser for concrete runs: every [fetch] resolves to the same
    response. *)
Definition always (r : Response) : Browser unit :=
  {| fetch := fun _ _ s => (Resolved r, s);
     createObjectURL := fun _ s => ("blob:local/1", s) |}.


Definition filled : FormData :=
  fun name =>
    if String.eqb name "text" then Some "Dear diary"
    else if String.eqb name "color" then Some "blue"
    else if String.eqb name "ruled" then Some "on"
    else None.

End Client.

(** The [fetch] options of the four page handlers. *)
Definition submitInit (formData : Client.FormData) : Client.Init :=
  {| Client.init_method := Some "POST";
     Client.init_body := Some (Client.formBody formData);
     Client.init_headers := [("Content-Type", "application/json")] |}.

Definition listInit : Client.Init :=
  {| Client.init_method := Some "GET"; Client.init_body := None; Client.init_headers := [] |}.

Definition deleteInit : Client.Init :=
  {| Client.init_method := Some "DELETE"; Client.init_body := None;
     Client.init_headers := [] |}.

Definition plainInit : Client.Init :=
  {| Client.init_method := None; Client.init_body := None; Client.init_headers := [] |}.


(** ** The remote store, as the application relies on it *)






(** ** The exchanges a route can produce

    Every trace of a request is one of these: the events of one request, in
    order, ending with the single response written. *)
Definition methodNotAllowed : JsVal := JObj [("message", JStr "Method not allowed")].

Definition missingId : JsVal := JObj [("error", JStr "Missing id")].

Inductive Exchange : Route -> list Event -> Prop :=
| ex_ok (route : Route) (c : Call) (v : JsVal) :
    Exchange route [Called c (Resolved v); Responded 200 (successBody v)]
| ex_created (c1 c2 : Call) (v1 v : JsVal) :
    Exchange ApiImages
      [Called c1 (Resolved v1); Called c2 (Resolved v); Responded 201 (successBody v)]
| ex_failed (route : Route) (c : Call) (e : JsVal) :
    Exchange route [Called c (Rejected e); Logged e; Responded 400 (errorBody e)]
| ex_failed_late (c1 c2 : Call) (v1 e : JsVal) :
    Exchange ApiImages
      [Called c1 (Resolved v1); Called c2 (Rejected e); Logged e;
       Responded 400 (errorBody e)]
| ex_bad_body (e : JsVal) :
    Exchange ApiImages [Logged e; Responded 400 (errorBody e)]
| ex_not_allowed (route : Route) :
    Exchange route [Responded 405 methodNotAllowed]
| ex_missing_id :
    Exchange ApiImagesId [Responded 400 missingId].

(** ** Running the handlers: what each route does, case by case *)

Ltac unfold_handlers :=
  unfold serve, ImagesIndex.handler, ImagesId.handler,
    ImagesIndex.handlePostRequest, ImagesIndex.handleGetRequest,
    ImagesId.handleDeleteRequest, ImagesIndex.destructureBody,
    Cloudinary.handleCloudinaryUpload, Cloudinary.handleGetCloudinaryUploads,
    Cloudinary.handleCloudinaryDelete, Cloudinary.CLOUDINARY_FOLDER_NAME,
    try_catch, bind, await, ret, throw, console_error, res_status_json, emit,
    completion, final, trace in *.

Example demo_post_then_get :
  let r1 := ImagesIndex.handler Demo.sdk (Demo.post (Demo.note "blue")) Demo.empty in
  let r2 := ImagesIndex.handler Demo.sdk Demo.get (final r1) in
  responses (trace r1)
    = [(201, successBody (JObj [("public_id", JStr "text-to-handwriting/img0")]))]
  /\ responses (trace r2)
    = [(200, successBody (JObj [("resources",
          JArr [JObj [("public_id", JStr "text-to-handwriting/img0")]])]))].
Proof. vm_compute. split; reflexivity. Qed.

Lemma truthy_false_iff (id : QueryValue) :
  truthy id = false <-> id = QUndefined \/ id = QString "".
Proof.
  split.
  - destruct id as [|s|segs]; simpl; intro H; auto; try discriminate.
    destruct s; simpl in H; [auto | discriminate].
  - intros [-> | ->]; reflexivity.
Qed.

(** An array is truthy even when empty; a catch-all route always delivers
    at least one segment. *)
Example empty_segments_are_truthy :
  truthy (QArray []) = true /\ ImagesId.joinId (QArray []) = QString "".
Proof. split; reflexivity. Qed.

Example join_segments :
  ImagesId.joinId (QArray ["text-to-handwriting"; "img0"])
  = QString "text-to-handwriting/img0".
Proof. reflexivity. Qed.

Section Runs.
Context {S : Type}.
Variable sdk : Services S.
Variable st : S.

(** GET /api/images: one listing call, then 200 or 400. *)
Lemma index_get_run (req : Request) :
  method req = "GET" ->
  ImagesIndex.handler sdk req st =
    match api_resources sdk namespaceListing st with
    | (Resolved v, s1) =>
        (Normal tt, s1,
         [Called (CResources namespaceListing) (Resolved v);
          Responded 200 (successBody v)])
    | (Rejected e, s1) =>
        (Normal tt, s1,
         [Called (CResources namespaceListing) (Rejected e);
          Logged e;
          Responded 400 (errorBody e)])
    end.
Proof.
  intro Hm. unfold_handlers. rewrite Hm. simpl.
  unfold namespaceListing.
  destruct (api_resources sdk _ st) as [[v | e] s1]; reflexivity.
Qed.

(** POST /api/images with a body that cannot be destructured. *)
Lemma index_post_nullish_run (req : Request) :
  method req = "POST" ->
  nullish (body req) = true ->
  exists e,
    ImagesIndex.handler sdk req st =
      (Normal tt, st, [Logged e; Responded 400 (errorBody e)]).
Proof.
  intros Hm Hb. unfold_handlers. rewrite Hm. simpl.
  destruct (body req); try discriminate; simpl; eexists; reflexivity.
Qed.

(** POST /api/images with any other body: render, then upload the first
    page, then 201; the first failure ends the request with 400. *)
Lemma index_post_run (req : Request) :
  method req = "POST" ->
  nullish (body req) = false ->
  ImagesIndex.handler sdk req st =
    let text := getProp (body req) "text" in
    let opts := renderOptions (body req) in
    match handwritten sdk text opts st with
    | (Rejected e, s1) =>
        (Normal tt, s1,
         [Called (CRender text opts) (Rejected e);
          Logged e;
          Responded 400 (errorBody e)])
    | (Resolved pages, s1) =>
        let f := ImagesIndex.firstOf pages in
        match uploader_upload sdk f namespaceUpload s1 with
        | (Resolved v, s2) =>
            (Normal tt, s2,
             [Called (CRender text opts) (Resolved (JArr pages));
              Called (CUpload f namespaceUpload) (Resolved v);
              Responded 201 (successBody v)])
        | (Rejected e, s2) =>
            (Normal tt, s2,
             [Called (CRender text opts) (Resolved (JArr pages));
              Called (CUpload f namespaceUpload) (Rejected e);
              Logged e;
              Responded 400 (errorBody e)])
        end
    end.
Proof.
  intros Hm Hb. unfold_handlers. rewrite Hm. simpl.
  unfold renderOptions, namespaceUpload.
  destruct (body req) eqn:Eb; try discriminate; simpl;
    match goal with
    | |- context [handwritten sdk ?t ?o st] =>
        destruct (handwritten sdk t o st) as [[pages | e] s1]; try reflexivity
    end;
    match goal with
    | |- context [uploader_upload sdk ?f ?o ?s] =>
        destruct (uploader_upload sdk f o s) as [[v | e] s2]; reflexivity
    end.
Qed.

(** Any other method on /api/images. *)
Lemma index_other_run (req : Request) :
  method req <> "GET" ->
  method req <> "POST" ->
  ImagesIndex.handler sdk req st =
    (Normal tt, st, [Responded 405 (JObj [("message", JStr "Method not allowed")])]).
Proof.
  intros Hg Hp. unfold_handlers.
  apply String.eqb_neq in Hg, Hp. rewrite Hg, Hp. reflexivity.
Qed.

(** /api/images/:id without an identifier, whatever the method. *)
Lemma id_missing_run (req : Request) :
  truthy (queryGet "id" (query req)) = false ->
  ImagesId.handler sdk req st =
    (Normal tt, st, [Responded 400 (JObj [("error", JStr "Missing id")])]).
Proof.
  intro Hid. unfold_handlers. rewrite Hid. reflexivity.
Qed.

(** DELETE /api/images/:id with an identifier. *)
Lemma id_delete_run (req : Request) :
  truthy (queryGet "id" (query req)) = true ->
  method req = "DELETE" ->
  ImagesId.handler sdk req st =
    let ids := [ImagesId.joinId (queryGet "id" (query req))] in
    match api_delete_resources sdk ids imageDeletion st with
    | (Resolved v, s1) =>
        (Normal tt, s1,
         [Called (CDelete ids imageDeletion) (Resolved v);
          Responded 200 (successBody v)])
    | (Rejected e, s1) =>
        (Normal tt, s1,
         [Called (CDelete ids imageDeletion) (Rejected e);
          Logged e;
          Responded 400 (errorBody e)])
    end.
Proof.
  intros Hid Hm. unfold_handlers. rewrite Hid, Hm. simpl.
  unfold imageDeletion.
  destruct (api_delete_resources sdk _ _ st) as [[v | e] s1]; reflexivity.
Qed.

(** Any other method on /api/images/:id with an identifier. *)
Lemma id_other_run (req : Request) :
  truthy (queryGet "id" (query req)) = true ->
  method req <> "DELETE" ->
  ImagesId.handler sdk req st =
    (Normal tt, st, [Responded 405 (JObj [("message", JStr "Method not allowed")])]).
Proof.
  intros Hid Hm. unfold_handlers.
  apply String.eqb_neq in Hm. rewrite Hid, Hm. reflexivity.
Qed.
End Runs.

(** Every request to either route produces one of the exchanges, and the
    handler returns normally. *)
Lemma serve_exchange {S} (sdk : Services S) (st : S) (route : Route) (req : Request) :
  completion (serve sdk route req st) = Normal tt
  /\ Exchange route (trace (serve sdk route req st)).
Proof.
  destruct route; simpl.
  - destruct (string_dec (method req) "GET") as [Hg | Hg].
    { rewrite (index_get_run sdk st req Hg).
      destruct (api_resources sdk namespaceListing st) as [[v | e] s1];
        split; try reflexivity; constructor. }
    destruct (string_dec (method req) "POST") as [Hp | Hp].
    { destruct (nullish (body req)) eqn:Hb.
      - destruct (index_post_nullish_run sdk st req Hp Hb) as [e ->].
        split; [reflexivity | constructor].
      - rewrite (index_post_run sdk st req Hp Hb). cbv zeta.
        destruct (handwritten sdk _ _ st) as [[pages | e] s1];
          [ destruct (uploader_upload sdk _ _ s1) as [[v | e] s2] | ];
          split; try reflexivity; constructor. }
    rewrite (index_other_run sdk st req Hg Hp). split; [reflexivity | constructor].
  - destruct (truthy (queryGet "id" (query req))) eqn:Hid.
    + destruct (string_dec (method req) "DELETE") as [Hd | Hd].
      * rewrite (id_delete_run sdk st req Hid Hd). cbv zeta.
        destruct (api_delete_resources sdk _ _ st) as [[v | e] s1];
          split; try reflexivity; constructor.
      * rewrite (id_other_run sdk st req Hid Hd). split; [reflexivity | constructor].
    + rewrite (id_missing_run sdk st req Hid). split; [reflexivity | constructor].
Qed.

(** ** C1: validation before rendering *)

(** C1, as stated, fails: a POST whose color is "green" (outside black, red,
    blue) reaches the renderer; so does one whose text is empty, and one
    whose ruled is not a boolean. *)
Lemma C1_invalid_input_reaches_renderer :
  let green := Demo.note "green" in
  let blank := JObj [("text", JStr ""); ("color", JStr "black"); ("ruled", JBool false)] in
  let unruled := JObj [("text", JStr "hi"); ("color", JStr "red"); ("ruled", JStr "yes")] in
  specAllowedColor (getProp green "color") = false
  /\ rendered (trace (ImagesIndex.handler Demo.sdk (Demo.post green) Demo.empty)) = true
  /\ specNonEmptyText (getProp blank "text") = false
  /\ rendered (trace (ImagesIndex.handler Demo.sdk (Demo.post blank) Demo.empty)) = true
  /\ specIsBoolean (getProp unruled "ruled") = false
  /\ rendered (trace (ImagesIndex.handler Demo.sdk (Demo.post unruled) Demo.empty)) = true.
Proof. vm_compute. repeat split. Qed.

(** C1, amended: the POST handler checks neither text, color nor ruled.  For
    every POST request whose body is neither null nor undefined, the first
    thing the handler does is to invoke the renderer, with the body's text
    and with its ruled and color passed on unchanged as the options ruled
    and inkColor (outputType "png/b64"), whatever their values.  When the
    renderer rejects them the request is answered 400 and nothing is
    uploaded.  Only a null or undefined body is turned down before
    rendering, with a 400. *)
Theorem C1_post_renders_unvalidated :
  forall (S : Type) (sdk : Services S) (st : S) (req : Request),
    method req = "POST" ->
    let r := ImagesIndex.handler sdk req st in
    (nullish (body req) = false ->
       exists outcome rest,
         trace r =
           Called (CRender (getProp (body req) "text")
                     {| ruled := getProp (body req) "ruled";
                        outputType := "png/b64";
                        inkColor := getProp (body req) "color" |}) outcome :: rest)
    /\ (forall e s1,
          nullish (body req) = false ->
          handwritten sdk (getProp (body req) "text")
            {| ruled := getProp (body req) "ruled";
               outputType := "png/b64";
               inkColor := getProp (body req) "color" |} st = (Rejected e, s1) ->
          responses (trace r) = [(400, errorBody e)]
          /\ uploadedFiles (trace r) = [])
    /\ (nullish (body req) = true ->
          rendered (trace r) = false
          /\ exists e, responses (trace r) = [(400, errorBody e)]).
Proof.
  intros S sdk st req Hm r. subst r. split; [| split].
  - intro Hb.
    rewrite (index_post_run sdk st req Hm Hb). cbv zeta. unfold renderOptions.
    destruct (handwritten sdk _ _ st) as [[pages | e] s1];
      [ destruct (uploader_upload sdk _ _ s1) as [[v | e] s2] | ];
      eexists; eexists; reflexivity.
  - intros e s1 Hb Hr.
    rewrite (index_post_run sdk st req Hm Hb). cbv zeta. unfold renderOptions.
    rewrite Hr. split; reflexivity.
  - intro Hb. destruct (index_post_nullish_run sdk st req Hm Hb) as [e ->].
    split; [reflexivity | exists e; reflexivity].
Qed.

Lemma C1_post_renders_unvalidated_witness :
  let r := ImagesIndex.handler Demo.sdk (Demo.post (Demo.note "green")) Demo.empty in
  (exists outcome rest,
     trace r
     = Called (CRender (JStr "Dear diary")
                 {| ruled := JBool true; outputType := "png/b64"; inkColor := JStr "green" |})
         outcome :: rest)
  /\ responses (trace r) = [(400, errorBody Demo.invalidArguments)]
  /\ uploadedFiles (trace r) = [].
Proof.
  destruct (C1_post_renders_unvalidated Demo.World Demo.sdk Demo.empty
              (Demo.post (Demo.note "green")) eq_refl) as [Hfirst [Hrej _]].
  split.
  - exact (Hfirst eq_refl).
  - exact (Hrej Demo.invalidArguments Demo.empty eq_refl eq_refl).
Defined.

(** ** C2: the body of a non-2xx response *)

(** C2, as stated, fails: an unsupported method is answered 405 with a body
    that has no error field and whose message is not "Error"; a missing
    identifier is answered 400 with a body that has no message field. *)
Lemma C2_other_error_bodies :
  let put := {| method := "PUT"; query := []; body := JUndefined |} in
  responses (trace (serve Demo.sdk ApiImages put Demo.empty))
    = [(405, JObj [("message", JStr "Method not allowed")])]
  /\ is2xx 405 = false
  /\ isErrorBody (JObj [("message", JStr "Method not allowed")]) = false
  /\ responses (trace (serve Demo.sdk ApiImagesId (Demo.delete QUndefined) Demo.empty))
    = [(400, JObj [("error", JStr "Missing id")])]
  /\ is2xx 400 = false
  /\ isErrorBody (JObj [("error", JStr "Missing id")]) = false.
Proof. vm_compute. repeat split. Qed.

(** C2, amended: on either route every response outside the 2xx range has
    one of three bodies: status 400 with [{message: "Error", error}] (a caught
    failure), status 405 with [{message: "Method not allowed"}] (unsupported
    method), or, on /api/images/:id only, status 400 with
    [{error: "Missing id"}]. *)
Theorem C2_non2xx_bodies :
  forall (S : Type) (sdk : Services S) (st : S) (route : Route) (req : Request)
         (code : nat) (b : JsVal),
    In (code, b) (responses (trace (serve sdk route req st))) ->
    is2xx code = false ->
    (code = 400 /\ exists e, b = JObj [("message", JStr "Error"); ("error", e)])
    \/ (code = 405 /\ b = JObj [("message", JStr "Method not allowed")])
    \/ (route = ApiImagesId /\ code = 400 /\ b = JObj [("error", JStr "Missing id")]).
Proof.
  intros S sdk st route req code b Hin H2.
  destruct (serve_exchange sdk st route req) as [_ Hex].
  remember (trace (serve sdk route req st)) as t eqn:Et. clear Et.
  destruct Hex as [rt c v | c1 c2 v1 v | rt c e | c1 c2 v1 e | e | rt | ];
    simpl in Hin;
    destruct Hin as [Heq | []]; inversion Heq; subst code b;
    try discriminate H2.
  - left. split; [reflexivity | exists e; reflexivity].
  - left. split; [reflexivity | exists e; reflexivity].
  - left. split; [reflexivity | exists e; reflexivity].
  - right; left. split; reflexivity.
  - right; right. repeat split; reflexivity.
Qed.

Lemma C2_non2xx_bodies_witness :
  (400 = 400 /\ exists e, errorBody Demo.unavailable
                          = JObj [("message", JStr "Error"); ("error", e)])
  \/ (400 = 405 /\ errorBody Demo.unavailable = JObj [("message", JStr "Method not allowed")])
  \/ (ApiImages = ApiImagesId /\ 400 = 400
      /\ errorBody Demo.unavailable = JObj [("error", JStr "Missing id")]).
Proof.
  apply (C2_non2xx_bodies Demo.World Demo.sdk Demo.offline ApiImages Demo.get
           400 (errorBody Demo.unavailable)).
  - simpl. left. reflexivity.
  - reflexivity.
Defined.

(** ** C3: failures of the collaborators *)

(** C3: on GET and POST /api/images and on DELETE /api/images/:id with an
    identifier, the handler always returns normally (nothing escapes it), and
    if a renderer or remote-store call was rejected with an error, the one
    response written is 400 with [{message: "Error", error}] carrying that
    error. *)
Theorem C3_failures_caught_as_400 :
  forall (S : Type) (sdk : Services S) (st : S) (route : Route) (req : Request),
    (route = ApiImages /\ (method req = "GET" \/ method req = "POST"))
    \/ (route = ApiImagesId /\ method req = "DELETE"
        /\ truthy (queryGet "id" (query req)) = true) ->
    let r := serve sdk route req st in
    completion r = Normal tt
    /\ forall c e,
         In (Called c (Rejected e)) (trace r) ->
         responses (trace r) = [(400, JObj [("message", JStr "Error"); ("error", e)])].
Proof.
  intros S sdk st route req _ r. subst r.
  destruct (serve_exchange sdk st route req) as [Hc Hex].
  split; [exact Hc |].
  intros c e Hin.
  remember (trace (serve sdk route req st)) as t eqn:Et. clear Et Hc.
  destruct Hex as [rt c0 v | c1 c2 v1 v | rt c0 e0 | c1 c2 v1 e0 | e0 | rt | ];
    simpl in Hin;
    repeat (destruct Hin as [Hin | Hin]; try discriminate Hin);
    try contradiction;
    inversion Hin; subst; reflexivity.
Qed.

Lemma C3_failures_caught_as_400_witness :
  let r := serve Demo.sdk ApiImagesId (Demo.delete (QArray ["text-to-handwriting"; "img0"]))
             Demo.offline in
  completion r = Normal tt
  /\ In (Called (CDelete [QString "text-to-handwriting/img0"] imageDeletion)
           (Rejected Demo.unavailable)) (trace r)
  /\ responses (trace r) = [(400, errorBody Demo.unavailable)].
Proof.
  pose proof (C3_failures_caught_as_400 Demo.World Demo.sdk Demo.offline ApiImagesId
                (Demo.delete (QArray ["text-to-handwriting"; "img0"]))
                (or_intror (conj eq_refl (conj eq_refl eq_refl)))) as [Hc Hr].
  split; [exact Hc |].
  split; [left; reflexivity |].
  apply (Hr (CDelete [QString "text-to-handwriting/img0"] imageDeletion)).
  left; reflexivity.
Defined.

(** ** C4: unsupported methods *)

(** C4: a request to /api/images whose method is neither GET nor POST, and a
    request to /api/images/:id with an identifier whose method is not DELETE,
    is answered with status 405 (and reaches no collaborator). *)
Theorem C4_unsupported_method_405 :
  forall (S : Type) (sdk : Services S) (st : S) (route : Route) (req : Request),
    (route = ApiImages /\ method req <> "GET" /\ method req <> "POST")
    \/ (route = ApiImagesId /\ truthy (queryGet "id" (query req)) = true
        /\ method req <> "DELETE") ->
    let r := serve sdk route req st in
    map fst (responses (trace r)) = [405]
    /\ calls (trace r) = [].
Proof.
  intros S sdk st route req [[-> [Hg Hp]] | [-> [Hid Hd]]] r; subst r; simpl.
  - rewrite (index_other_run sdk st req Hg Hp). split; reflexivity.
  - rewrite (id_other_run sdk st req Hid Hd). split; reflexivity.
Qed.

Lemma C4_unsupported_method_405_witness :
  let patch := {| method := "PATCH"; query := [("id", QArray ["a"; "b"])]; body := JNull |} in
  map fst (responses (trace (serve Demo.sdk ApiImagesId patch Demo.empty))) = [405]
  /\ calls (trace (serve Demo.sdk ApiImagesId patch Demo.empty)) = [].
Proof.
  apply (C4_unsupported_method_405 Demo.World Demo.sdk Demo.empty ApiImagesId
           {| method := "PATCH"; query := [("id", QArray ["a"; "b"])]; body := JNull |}).
  right. split; [reflexivity |]. split; [reflexivity | discriminate].
Defined.

(** ** C5: DELETE without an identifier *)

(** C5: a DELETE request to /api/images/:id whose identifier is absent or the
    empty string is answered with status 400, and the remote delete operation
    is not called. *)
Theorem C5_delete_missing_id_400 :
  forall (S : Type) (sdk : Services S) (st : S) (req : Request),
    method req = "DELETE" ->
    queryGet "id" (query req) = QUndefined \/ queryGet "id" (query req) = QString "" ->
    let r := ImagesId.handler sdk req st in
    map fst (responses (trace r)) = [400]
    /\ existsb isDelete (calls (trace r)) = false.
Proof.
  intros S sdk st req _ Hid r. subst r.
  apply truthy_false_iff in Hid.
  rewrite (id_missing_run sdk st req Hid). split; reflexivity.
Qed.

Lemma C5_delete_missing_id_400_witness :
  let r := ImagesId.handler Demo.sdk (Demo.delete (QString "")) Demo.empty in
  map fst (responses (trace r)) = [400]
  /\ existsb isDelete (calls (trace r)) = false.
Proof.
  apply (C5_delete_missing_id_400 Demo.World Demo.sdk Demo.empty (Demo.delete (QString ""))).
  - reflexivity.
  - right. reflexivity.
Defined.

(** ** C6: the identifier of a DELETE *)



(** ** C7: the namespace *)







(** With the in-memory store, whose listing answers a prefix query with the
    items under that prefix, a GET returns exactly the items of the
    namespace, and a successful POST adds an item inside it. *)
Lemma demo_listing_is_namespace (w : Demo.World) :
  Demo.online w = true ->
  responses (trace (ImagesIndex.handler Demo.sdk Demo.get w))
  = [(200, successBody (JObj [("resources",
        JArr (map Demo.describe
                (filter (fun it => String.prefix "text-to-handwriting/" (fst it))
                        (Demo.items w))))]))].
Proof.
  intro Hon.
  rewrite (index_get_run Demo.sdk w Demo.get eq_refl).
  simpl. unfold Demo.resources. rewrite Hon. reflexivity.
Qed.

Lemma demo_upload_in_namespace (w : Demo.World) (color : string) :
  Demo.online w = true ->
  specAllowedColor (JStr color) = true ->
  exists id,
    Demo.items (final (ImagesIndex.handler Demo.sdk (Demo.post (Demo.note color)) w))
    = (Demo.items w ++ [(id, JStr "cGFnZTE=")])%list
    /\ String.prefix "text-to-handwriting/" id = true.
Proof.
  intros Hon Hc.
  rewrite (index_post_run Demo.sdk w (Demo.post (Demo.note color)) eq_refl eq_refl).
  cbv zeta.
  assert (Hr : handwritten Demo.sdk
                 (getProp (body (Demo.post (Demo.note color))) "text")
                 (renderOptions (body (Demo.post (Demo.note color)))) w
               = (Resolved [JStr "cGFnZTE="; JStr "cGFnZTI="], w)).
  { simpl. unfold Demo.render. simpl. simpl in Hc. rewrite Hc. reflexivity. }
  rewrite Hr.
  assert (Hu : uploader_upload Demo.sdk
                 (ImagesIndex.firstOf [JStr "cGFnZTE="; JStr "cGFnZTI="]) namespaceUpload w
               = (Resolved (JObj [("public_id",
                    JStr ("text-to-handwriting/img"
                          ++ NilEmpty.string_of_uint (Nat.to_uint (Demo.next w)))%string)]),
                  {| Demo.online := true;
                     Demo.items := (Demo.items w
                       ++ [(("text-to-handwriting/img"
                             ++ NilEmpty.string_of_uint (Nat.to_uint (Demo.next w)))%string,
                            JStr "cGFnZTE=")])%list;
                     Demo.next := Datatypes.S (Demo.next w) |})).
  { simpl. unfold Demo.upload. rewrite Hon. reflexivity. }
  rewrite Hu.
  eexists. split; [reflexivity |]. reflexivity.
Qed.

(** ** C8: only the first page is uploaded *)



(** ** C9: the identifier check comes before the method dispatch *)

(** C9: on /api/images/:id a request without an identifier is answered 400
    with [{error: "Missing id"}] whatever its method, and reaches no
    collaborator; an unsupported method without identifier gets 400, not
    405. *)
Theorem C9_missing_id_before_method :
  forall (S : Type) (sdk : Services S) (st : S) (req : Request),
    truthy (queryGet "id" (query req)) = false ->
    trace (ImagesId.handler sdk req st)
    = [Responded 400 (JObj [("error", JStr "Missing id")])].
Proof.
  intros S sdk st req Hid.
  rewrite (id_missing_run sdk st req Hid). reflexivity.
Qed.

Lemma C9_missing_id_before_method_witness :
  trace (ImagesId.handler Demo.sdk
           {| method := "PUT"; query := []; body := JUndefined |} Demo.empty)
  = [Responded 400 (JObj [("error", JStr "Missing id")])].
Proof.
  apply (C9_missing_id_before_method Demo.World Demo.sdk Demo.empty
           {| method := "PUT"; query := []; body := JUndefined |}).
  reflexivity.
Defined.

(** ** C10: success responses *)

(** C10: when the collaborators succeed, the response body is
    [{message: "Success", result}] with the result of the (last) remote call;
    the status is 200 for GET /api/images and DELETE /api/images/:id and 201
    for POST /api/images. *)
Theorem C10_success_status_codes :
  forall (S : Type) (sdk : Services S) (st s1 s2 : S) (req : Request)
         (pages : list JsVal) (v : JsVal),
    (method req = "GET" ->
     api_resources sdk namespaceListing st = (Resolved v, s1) ->
     responses (trace (ImagesIndex.handler sdk req st))
     = [(200, JObj [("message", JStr "Success"); ("result", v)])])
    /\ (method req = "POST" ->
        nullish (body req) = false ->
        handwritten sdk (getProp (body req) "text") (renderOptions (body req)) st
        = (Resolved pages, s1) ->
        uploader_upload sdk (ImagesIndex.firstOf pages) namespaceUpload s1
        = (Resolved v, s2) ->
        responses (trace (ImagesIndex.handler sdk req st))
        = [(201, JObj [("message", JStr "Success"); ("result", v)])])
    /\ (method req = "DELETE" ->
        truthy (queryGet "id" (query req)) = true ->
        api_delete_resources sdk [ImagesId.joinId (queryGet "id" (query req))]
          imageDeletion st = (Resolved v, s1) ->
        responses (trace (ImagesId.handler sdk req st))
        = [(200, JObj [("message", JStr "Success"); ("result", v)])]).
Proof.
  intros S sdk st s1 s2 req pages v. split; [| split].
  - intros Hm Hr. rewrite (index_get_run sdk st req Hm), Hr. reflexivity.
  - intros Hm Hb Hr Hu.
    rewrite (index_post_run sdk st req Hm Hb). cbv zeta. rewrite Hr, Hu. reflexivity.
  - intros Hm Hid Hr.
    rewrite (id_delete_run sdk st req Hid Hm). cbv zeta. rewrite Hr. reflexivity.
Qed.

Lemma C10_success_status_codes_witness :
  let stored := {| Demo.online := true;
                   Demo.items := [("text-to-handwriting/img0", JStr "cGFnZTE=")];
                   Demo.next := 1 |} in
  responses (trace (ImagesIndex.handler Demo.sdk Demo.get Demo.empty))
  = [(200, successBody (JObj [("resources", JArr [])]))]
  /\ responses (trace (ImagesIndex.handler Demo.sdk (Demo.post (Demo.note "black")) Demo.empty))
     = [(201, successBody (JObj [("public_id", JStr "text-to-handwriting/img0")]))]
  /\ responses (trace (ImagesId.handler Demo.sdk
                         (Demo.delete (QArray ["text-to-handwriting"; "img0"])) stored))
     = [(200, successBody (JObj [("deleted",
                JArr [JObj [("public_id", JStr "text-to-handwriting/img0")]])]))].
Proof.
  intro stored. split; [| split].
  - apply (proj1 (C10_success_status_codes Demo.World Demo.sdk Demo.empty Demo.empty
                    Demo.empty Demo.get [] (JObj [("resources", JArr [])])));
      reflexivity.
  - apply (proj1 (proj2 (C10_success_status_codes Demo.World Demo.sdk Demo.empty
                    Demo.empty stored (Demo.post (Demo.note "black"))
                    [JStr "cGFnZTE="; JStr "cGFnZTI="]
                    (JObj [("public_id", JStr "text-to-handwriting/img0")]))));
      reflexivity.
  - apply (proj2 (proj2 (C10_success_status_codes Demo.World Demo.sdk stored
                    {| Demo.online := true; Demo.items := []; Demo.next := 1 |}
                    Demo.empty (Demo.delete (QArray ["text-to-handwriting"; "img0"]))
                    [] (JObj [("deleted",
                          JArr [JObj [("public_id", JStr "text-to-handwriting/img0")]])]))));
      reflexivity.
Defined.

(** ** Further properties of the route handlers *)

(** X1: every request to either route is answered exactly once, by the last
    thing the handler does, and the handler returns normally. *)
Theorem X1_exactly_one_response_last :
  forall (S : Type) (sdk : Services S) (st : S) (route : Route) (req : Request),
    let r := serve sdk route req st in
    completion r = Normal tt
    /\ exists before code b,
         trace r = (before ++ [Responded code b])%list
         /\ responses before = [].
Proof.
  intros S sdk st route req r. subst r.
  destruct (serve_exchange sdk st route req) as [Hc Hex].
  split; [exact Hc |].
  remember (trace (serve sdk route req st)) as t eqn:Et. clear Et Hc.
  destruct Hex as [rt c v | c1 c2 v1 v | rt c e | c1 c2 v1 e | e | rt | ].
  - exists [Called c (Resolved v)], 200, (successBody v). split; reflexivity.
  - exists [Called c1 (Resolved v1); Called c2 (Resolved v)], 201, (successBody v).
    split; reflexivity.
  - exists [Called c (Rejected e); Logged e], 400, (errorBody e). split; reflexivity.
  - exists [Called c1 (Resolved v1); Called c2 (Rejected e); Logged e], 400, (errorBody e).
    split; reflexivity.
  - exists [Logged e], 400, (errorBody e). split; reflexivity.
  - exists [], 405, methodNotAllowed. split; reflexivity.
  - exists [], 400, missingId. split; reflexivity.
Qed.

(** X2: on either route [console.error] is called with an error exactly when
    the response is 400 with [{message: "Error", error}] carrying that error,
    and at most once; a 405, a missing identifier and a success log
    nothing. *)
Theorem X2_logged_iff_error_response :
  forall (S : Type) (sdk : Services S) (st : S) (route : Route) (req : Request),
    let t := trace (serve sdk route req st) in
    (forall e, In e (logged t) <-> responses t = [(400, errorBody e)])
    /\ (length (logged t) <= 1)%nat.
Proof.
  intros S sdk st route req t. subst t.
  destruct (serve_exchange sdk st route req) as [_ Hex].
  remember (trace (serve sdk route req st)) as t eqn:Et. clear Et.
  destruct Hex as [rt c v | c1 c2 v1 v | rt c e0 | c1 c2 v1 e0 | e0 | rt | ];
    simpl; (split; [| auto]); intro e; split; intro H;
    try contradiction; try discriminate H;
    try (destruct H as [-> | []]; reflexivity);
    try (inversion H; left; reflexivity).
Qed.

(** X3: what each operation reads from the request.  A GET to /api/images
    reads nothing: any two GET requests run identically.  A POST reads only
    [text], [color] and [ruled] of the body: two bodies that agree on these
    run identically, whatever else they or the query hold.  A DELETE to
    /api/images/:id reads only [query.id]. *)
Theorem X3_request_parts_read :
  forall (S : Type) (sdk : Services S) (st : S) (req1 req2 : Request),
    (method req1 = "GET" -> method req2 = "GET" ->
     ImagesIndex.handler sdk req1 st = ImagesIndex.handler sdk req2 st)
    /\ (method req1 = "POST" -> method req2 = "POST" ->
        nullish (body req1) = false -> nullish (body req2) = false ->
        getProp (body req1) "text" = getProp (body req2) "text" ->
        getProp (body req1) "color" = getProp (body req2) "color" ->
        getProp (body req1) "ruled" = getProp (body req2) "ruled" ->
        ImagesIndex.handler sdk req1 st = ImagesIndex.handler sdk req2 st)
    /\ (method req1 = "DELETE" -> method req2 = "DELETE" ->
        queryGet "id" (query req1) = queryGet "id" (query req2) ->
        ImagesId.handler sdk req1 st = ImagesId.handler sdk req2 st).
Proof.
  intros S sdk st req1 req2. split; [| split].
  - intros H1 H2.
    rewrite (index_get_run sdk st req1 H1), (index_get_run sdk st req2 H2). reflexivity.
  - intros H1 H2 Hb1 Hb2 Ht Hc Hr.
    rewrite (index_post_run sdk st req1 H1 Hb1), (index_post_run sdk st req2 H2 Hb2).
    unfold renderOptions. rewrite Ht, Hc, Hr. reflexivity.
  - intros H1 H2 Hid.
    destruct (truthy (queryGet "id" (query req2))) eqn:Hp.
    + assert (Hp1 : truthy (queryGet "id" (query req1)) = true) by (rewrite Hid; exact Hp).
      rewrite (id_delete_run sdk st req1 Hp1 H1), (id_delete_run sdk st req2 Hp H2), Hid.
      reflexivity.
    + assert (Hp1 : truthy (queryGet "id" (query req1)) = false) by (rewrite Hid; exact Hp).
      rewrite (id_missing_run sdk st req1 Hp1), (id_missing_run sdk st req2 Hp).
      reflexivity.
Qed.

Lemma X3_request_parts_read_witness :
  let plain := Demo.post (Demo.note "blue") in
  let extra :=
    {| method := "POST";
       query := [("folder", QString "elsewhere/")];
       body := JObj [("publicId", JStr "chosen"); ("folder", JBool false);
                     ("text", JStr "Dear diary"); ("color", JStr "blue");
                     ("ruled", JBool true)] |} in
  ImagesIndex.handler Demo.sdk plain Demo.empty
  = ImagesIndex.handler Demo.sdk extra Demo.empty.
Proof.
  apply (proj1 (proj2 (X3_request_parts_read Demo.World Demo.sdk Demo.empty
           (Demo.post (Demo.note "blue"))
           {| method := "POST";
              query := [("folder", QString "elsewhere/")];
              body := JObj [("publicId", JStr "chosen"); ("folder", JBool false);
                            ("text", JStr "Dear diary"); ("color", JStr "blue");
                            ("ruled", JBool true)] |})));
    reflexivity.
Defined.



(** X5: the only collaborator /api/images/:id ever reaches is the remote
    delete, at most once per request, always with a list of exactly one
    string: a string identifier as it came, an array identifier joined with
    "/".  It never renders, uploads or lists. *)
Theorem X5_id_route_only_deletes_one_string :
  forall (S : Type) (sdk : Services S) (st : S) (req : Request),
    let id := queryGet "id" (query req) in
    let t := trace (ImagesId.handler sdk req st) in
    calls t = []
    \/ exists s,
         calls t = [CDelete [QString s] {| do_resource_type := "image" |}]
         /\ method req = "DELETE"
         /\ (id = QString s \/ exists segments, id = QArray segments
                                               /\ s = String.concat "/" segments).
Proof.
  intros S sdk st req id t. subst id t.
  destruct (truthy (queryGet "id" (query req))) eqn:Hid.
  - destruct (string_dec (method req) "DELETE") as [Hd | Hd].
    + right. rewrite (id_delete_run sdk st req Hid Hd). cbv zeta.
      destruct (queryGet "id" (query req)) as [| s | segments] eqn:Eid;
        [discriminate Hid | exists s | exists (String.concat "/" segments)];
        simpl ImagesId.joinId;
        (destruct (api_delete_resources sdk _ _ st) as [[v | e] s1];
         (split; [reflexivity | split; [exact Hd |]])).
      * left; reflexivity.
      * left; reflexivity.
      * right; exists segments; split; reflexivity.
      * right; exists segments; split; reflexivity.
    + left. rewrite (id_other_run sdk st req Hid Hd). reflexivity.
  - left. rewrite (id_missing_run sdk st req Hid). reflexivity.
Qed.

(** X6: the collaborator calls of a request to /api/images are one of four
    sequences: none; the namespace listing alone; the renderer alone; the
    renderer followed by one upload.  So an upload only follows a render that
    succeeded, its options are always folder "text-to-handwriting/",
    public_id undefined and resource_type "auto", and the route never
    deletes. *)
Theorem X6_index_route_call_sequences :
  forall (S : Type) (sdk : Services S) (st : S) (req : Request),
    let t := trace (ImagesIndex.handler sdk req st) in
    let render := CRender (getProp (body req) "text")
                    {| ruled := getProp (body req) "ruled";
                       outputType := "png/b64";
                       inkColor := getProp (body req) "color" |} in
    calls t = []
    \/ calls t = [CResources {| ro_type := "upload";
                                ro_prefix := "text-to-handwriting/";
                                ro_resource_type := "image" |}]
    \/ (calls t = [render] /\ exists e, In (Called render (Rejected e)) t)
    \/ exists pages,
         In (Called render (Resolved (JArr pages))) t
         /\ calls t = [render;
                       CUpload (ImagesIndex.firstOf pages)
                         {| uo_folder := Some "text-to-handwriting/";
                            uo_public_id := JUndefined;
                            uo_resource_type := "auto" |}].
Proof.
  intros S sdk st req t render. subst t render.
  destruct (string_dec (method req) "GET") as [Hg | Hg].
  { right; left. rewrite (index_get_run sdk st req Hg).
    destruct (api_resources sdk namespaceListing st) as [[v | e] s1]; reflexivity. }
  destruct (string_dec (method req) "POST") as [Hp | Hp].
  - destruct (nullish (body req)) eqn:Hb.
    + left. destruct (index_post_nullish_run sdk st req Hp Hb) as [e ->]. reflexivity.
    + right; right. rewrite (index_post_run sdk st req Hp Hb). cbv zeta.
      unfold renderOptions, namespaceUpload.
      destruct (handwritten sdk _ _ st) as [[pages | e] s1].
      * right. exists pages.
        destruct (uploader_upload sdk _ _ s1) as [[v | e] s2];
          (split; [left; reflexivity | reflexivity]).
      * left. split; [reflexivity | exists e; left; reflexivity].
  - left. rewrite (index_other_run sdk st req Hg Hp). reflexivity.
Qed.

(** ** The pages, case by case *)

Ltac unfold_pages :=
  unfold Client.handleFormSubmit, Client.getImages, Client.handleDownloadResource,
    Client.handleDelete, Client.getImagesStart,
    Client.getImagesResume, Client.setImages, Client.issueFetch,
    Client.try_catch_finally, Client.andThen, Client.awaitFetch,
    Client.awaitSettled, Client.member, Client.ui, Client.pure, Client.raise,
    Client.result, Client.events in *.

Section PageRuns.
Context {S : Type}.
Variable browser : Client.Browser S.
Variable rendering : JsVal -> option JsVal.
Variable st : S.

Lemma handleFormSubmit_run (formData : Client.FormData) :
  Client.handleFormSubmit browser formData st =
    let input := JStr "/api/images" in
    let init := submitInit formData in
    match Client.fetch browser input init st with
    | (Rejected e, s1) =>
        (Normal tt, s1,
         [Client.PreventDefault; Client.SetSubmitting true;
          Client.Fetched input init (Rejected e);
          Client.ConsoleError e; Client.SetSubmitting false])
    | (Resolved r, s1) =>
        match Client.json r with
        | Rejected e =>
            (Normal tt, s1,
             [Client.PreventDefault; Client.SetSubmitting true;
              Client.Fetched input init (Resolved r);
              Client.ConsoleError e; Client.SetSubmitting false])
        | Resolved data =>
            if Client.ok r then
              (Normal tt, s1,
               [Client.PreventDefault; Client.SetSubmitting true;
                Client.Fetched input init (Resolved r);
                Client.RouterPush "/images"; Client.SetSubmitting false])
            else
              (Normal tt, s1,
               [Client.PreventDefault; Client.SetSubmitting true;
                Client.Fetched input init (Resolved r);
                Client.ConsoleError data; Client.SetSubmitting false])
        end
    end.
Proof.
  unfold_pages. unfold submitInit, Client.formBody. cbv zeta.
  destruct (Client.fetch browser _ _ st) as [[r | e] s1]; [| reflexivity].
  destruct (Client.json r) as [data | e]; [| reflexivity].
  destruct (Client.ok r); reflexivity.
Qed.

(** The remainder of [getImages]: either the list is replaced, and what the
    render throws is logged, or one error is logged; [setLoading(false)]
    comes last. *)
Lemma getImagesResume_cases (pending : Settled Client.Response) (s : S) :
  exists tail,
    Client.getImagesResume rendering pending s
    = (Normal tt, s, (tail ++ [Client.SetLoading false])%list)
    /\ ((exists resp data,
           pending = Resolved resp
           /\ Client.ok resp = true
           /\ Client.json resp = Resolved data
           /\ nullish data = false
           /\ nullish (getProp data "result") = false
           /\ tail
              = Client.SetImages (getProp (getProp data "result") "resources")
                :: match Client.rerender rendering
                           (getProp (getProp data "result") "resources") with
                   | Some e => [Client.ConsoleError e]
                   | None => []
                   end)
        \/ ((forall resp data,
               pending = Resolved resp ->
               Client.ok resp = true ->
               Client.json resp = Resolved data ->
               nullish data = false ->
               nullish (getProp data "result") = false -> False)
            /\ exists e, tail = [Client.ConsoleError e])).
Proof.
  destruct pending as [resp | e].
  2:{ exists [Client.ConsoleError e]. split; [reflexivity |].
      right. split; [intros resp data H; discriminate H | eexists; reflexivity]. }
  destruct (Client.json resp) as [data | e] eqn:Ej.
  2:{ exists [Client.ConsoleError e]. split; [unfold_pages; rewrite Ej; reflexivity |].
      right. split; [| eexists; reflexivity].
      intros resp' data' H _ Hj. inversion H; subst. congruence. }
  destruct (Client.ok resp) eqn:Eo.
  2:{ exists [Client.ConsoleError data].
      split; [unfold_pages; rewrite Ej, Eo; reflexivity |].
      right. split; [| eexists; reflexivity].
      intros resp' data' H Ho. inversion H; subst. congruence. }
  destruct (nullish data) eqn:Nd.
  { assert (Hthrow : exists e, forall s', Client.member (S := S) data "result" s' = (Throw e, s', []))
      by (destruct data; try discriminate Nd; eexists; reflexivity).
    destruct Hthrow as [e He].
    exists [Client.ConsoleError e]. split.
    - unfold Client.getImagesResume, Client.try_catch_finally, Client.andThen,
        Client.awaitSettled, Client.pure, Client.raise, Client.ui.
      rewrite Ej, Eo. change (negb true) with false. cbv beta iota. rewrite He. reflexivity.
    - right. split; [| eexists; reflexivity].
      intros resp' data' H _ Hj Hn. inversion H; subst.
      rewrite Ej in Hj. inversion Hj; subst. congruence. }
  assert (Hres : forall s', Client.member (S := S) data "result" s'
                            = (Normal (getProp data "result"), s', []))
    by (destruct data; try discriminate Nd; reflexivity).
  destruct (nullish (getProp data "result")) eqn:Nr.
  { assert (Hthrow : exists e, forall s',
                Client.member (S := S) (getProp data "result") "resources" s'
                = (Throw e, s', []))
      by (destruct (getProp data "result"); try discriminate Nr; eexists; reflexivity).
    destruct Hthrow as [e He].
    exists [Client.ConsoleError e]. split.
    - unfold Client.getImagesResume, Client.try_catch_finally, Client.andThen,
        Client.awaitSettled, Client.pure, Client.raise, Client.ui.
      rewrite Ej, Eo. change (negb true) with false. cbv beta iota. rewrite Hres, He. reflexivity.
    - right. split; [| eexists; reflexivity].
      intros resp' data' H _ Hj _ Hn. inversion H; subst.
      rewrite Ej in Hj. inversion Hj; subst. congruence. }
  assert (Hrs : forall s', Client.member (S := S) (getProp data "result") "resources" s'
                           = (Normal (getProp (getProp data "result") "resources"), s', []))
    by (destruct (getProp data "result"); try discriminate Nr; reflexivity).
  eexists. split.
  - unfold Client.getImagesResume, Client.try_catch_finally, Client.andThen,
      Client.awaitSettled, Client.pure, Client.raise, Client.ui, Client.setImages.
    rewrite Ej, Eo. change (negb true) with false. cbv beta iota. rewrite Hres, Hrs.
    destruct (Client.rerender rendering (getProp (getProp data "result") "resources"))
      as [e |] eqn:Er.
    + instantiate (1 := Client.SetImages (getProp (getProp data "result") "resources")
                        :: match Client.rerender rendering
                                   (getProp (getProp data "result") "resources") with
                           | Some e => [Client.ConsoleError e]
                           | None => []
                           end).
      rewrite Er. reflexivity.
    + rewrite Er. reflexivity.
  - left. exists resp, data. repeat split; assumption.
Qed.

(** [getImages] is its beginning followed by its remainder. *)
Lemma getImages_split :
  Client.getImages browser rendering st
  = Client.andThen (Client.getImagesStart browser)
      (Client.getImagesResume rendering) st.
Proof.
  unfold Client.getImages, Client.getImagesStart, Client.getImagesResume,
    Client.try_catch_finally, Client.andThen, Client.awaitFetch, Client.issueFetch,
    Client.ui, Client.awaitSettled, Client.pure, Client.raise.
  destruct (Client.fetch browser _ _ st) as [[resp | e] s1]; [| reflexivity].
  destruct (Client.json resp) as [data | e]; [| reflexivity].
  destruct (negb (Client.ok resp)); [reflexivity |].
  destruct (Client.member data "result" s1) as [[[res | e] s3] t3]; [| reflexivity].
  destruct (Client.member res "resources" s3) as [[[rs | e] s4] t4]; [| reflexivity].
  destruct (Client.setImages rendering rs s4) as [[[[] | e] s5] t5]; reflexivity.
Qed.

Lemma getImages_run :
  exists tail,
    Client.getImages browser rendering st
    = (Normal tt, snd (Client.fetch browser (JStr "/api/images") listInit st),
       (Client.SetLoading true
        :: Client.Fetched (JStr "/api/images") listInit
             (fst (Client.fetch browser (JStr "/api/images") listInit st))
        :: tail ++ [Client.SetLoading false])%list)
    /\ ((exists resp data,
           fst (Client.fetch browser (JStr "/api/images") listInit st) = Resolved resp
           /\ Client.ok resp = true
           /\ Client.json resp = Resolved data
           /\ nullish data = false
           /\ nullish (getProp data "result") = false
           /\ tail
              = Client.SetImages (getProp (getProp data "result") "resources")
                :: match Client.rerender rendering
                           (getProp (getProp data "result") "resources") with
                   | Some e => [Client.ConsoleError e]
                   | None => []
                   end)
        \/ ((forall resp data,
               fst (Client.fetch browser (JStr "/api/images") listInit st)
               = Resolved resp ->
               Client.ok resp = true ->
               Client.json resp = Resolved data ->
               nullish data = false ->
               nullish (getProp data "result") = false -> False)
            /\ exists e, tail = [Client.ConsoleError e])).
Proof.
  rewrite getImages_split.
  unfold Client.andThen at 1. unfold Client.getImagesStart, Client.andThen,
    Client.issueFetch, Client.ui. fold listInit.
  destruct (Client.fetch browser (JStr "/api/images") listInit st) as [p s1].
  destruct (getImagesResume_cases p s1) as [tail [Hrun Hcases]].
  exists tail. rewrite Hrun. split; [reflexivity | exact Hcases].
Qed.

Lemma handleDelete_run (id : string) :
  Client.handleDelete browser id st =
    let input := JStr ("/api/images/" ++ id) in
    match Client.fetch browser input deleteInit st with
    | (Rejected e, s1) =>
        (Normal None, s1,
         [Client.SetLoading true; Client.Fetched input deleteInit (Rejected e);
          Client.SetLoading false])
    | (Resolved r, s1) =>
        match Client.json r with
        | Rejected e =>
            (Normal None, s1,
             [Client.SetLoading true; Client.Fetched input deleteInit (Resolved r);
              Client.SetLoading false])
        | Resolved data =>
            if Client.ok r then
              match Client.fetch browser (JStr "/api/images") listInit s1 with
              | (pending, s2) =>
                  (Normal (Some pending), s2,
                   [Client.SetLoading true;
                    Client.Fetched input deleteInit (Resolved r);
                    Client.SetLoading true;
                    Client.Fetched (JStr "/api/images") listInit pending;
                    Client.SetLoading false])
              end
            else
              (Normal None, s1,
               [Client.SetLoading true; Client.Fetched input deleteInit (Resolved r);
                Client.SetLoading false])
        end
    end.
Proof.
  unfold_pages. unfold deleteInit, listInit. cbv zeta.
  destruct (Client.fetch browser _ _ st) as [[r | e] s1]; [| reflexivity].
  destruct (Client.json r) as [data | e]; [| reflexivity].
  destruct (Client.ok r); [| reflexivity]. simpl.
  destruct (Client.fetch browser _ _ s1) as [pending s2]. reflexivity.
Qed.

Lemma handleDownloadResource_run (url : JsVal) :
  Client.handleDownloadResource browser url st =
    match Client.fetch browser url plainInit st with
    | (Rejected e, s1) =>
        (Normal tt, s1,
         [Client.SetLoading true; Client.Fetched url plainInit (Rejected e);
          Client.ConsoleError e; Client.SetLoading false])
    | (Resolved r, s1) =>
        let fetched := Client.Fetched url plainInit (Resolved r) in
        if Client.ok r then
          match Client.blob r with
          | Resolved b =>
              match Client.createObjectURL browser b s1 with
              | (fileUrl, s2) =>
                  (Normal tt, s2,
                   [Client.SetLoading true; fetched;
                    Client.AnchorAppended fileUrl "my-virtual-tag.png";
                    Client.AnchorClicked; Client.AnchorRemoved;
                    Client.SetLoading false])
              end
          | Rejected e =>
              (Normal tt, s1,
               [Client.SetLoading true; fetched; Client.ConsoleError e;
                Client.SetLoading false])
          end
        else
          match Client.json r with
          | Resolved data =>
              (Normal tt, s1,
               [Client.SetLoading true; fetched; Client.ConsoleError data;
                Client.SetLoading false])
          | Rejected e =>
              (Normal tt, s1,
               [Client.SetLoading true; fetched; Client.ConsoleError e;
                Client.SetLoading false])
          end
    end.
Proof.
  unfold_pages. unfold plainInit. cbv zeta.
  destruct (Client.fetch browser _ _ st) as [[r | e] s1]; [| reflexivity].
  destruct (Client.ok r).
  - destruct (Client.blob r) as [b | e]; [| reflexivity].
    destruct (Client.createObjectURL browser b s1) as [u s2]. reflexivity.
  - destruct (Client.json r) as [data | e]; reflexivity.
Qed.
End PageRuns.

(** ** Properties of the pages *)

(** X7: submitting the form never throws and always runs the same frame:
    [preventDefault], [setSubmitting(true)], exactly one [fetch] (a POST to
    /api/images with the JSON content type and the body [{text, color,
    ruled}] read from the form), then either the navigation or one
    [console.error], and last [setSubmitting(false)], whatever the network
    does. *)
Theorem X7_submit_frame :
  forall (S : Type) (browser : Client.Browser S) (st : S) (formData : Client.FormData),
    let r := Client.handleFormSubmit browser formData st in
    let init :=
      {| Client.init_method := Some "POST";
         Client.init_body :=
           Some (JObj [("text", Client.entry (formData "text"));
                       ("color", Client.entry (formData "color"));
                       ("ruled", JBool (Client.isOn (formData "ruled")))]);
         Client.init_headers := [("Content-Type", "application/json")] |} in
    Client.result r = Normal tt
    /\ exists outcome step,
         Client.events r =
           [Client.PreventDefault; Client.SetSubmitting true;
            Client.Fetched (JStr "/api/images") init outcome;
            step; Client.SetSubmitting false]
         /\ (step = Client.RouterPush "/images" \/ exists e, step = Client.ConsoleError e).
Proof.
  intros S browser st formData r init. subst r init.
  rewrite handleFormSubmit_run. cbv zeta. unfold submitInit, Client.formBody.
  destruct (Client.fetch browser _ _ st) as [[resp | e] s1].
  - destruct (Client.json resp) as [data | e].
    + destruct (Client.ok resp); (split; [reflexivity |]);
        eexists; eexists; (split; [reflexivity |]);
        [left; reflexivity | right; eexists; reflexivity].
    + split; [reflexivity |].
      eexists; eexists; split; [reflexivity | right; eexists; reflexivity].
  - split; [reflexivity |].
    eexists; eexists; split; [reflexivity | right; eexists; reflexivity].
Qed.

(** X8: the form page navigates to /images exactly when the [fetch]
    resolved, the response body parsed as JSON and [response.ok] held; in
    every other case it stays and logs exactly one error.  It never does
    both. *)
Theorem X8_submit_navigates_iff_ok :
  forall (S : Type) (browser : Client.Browser S) (st : S) (formData : Client.FormData),
    let t := Client.events (Client.handleFormSubmit browser formData st) in
    (Client.navigations t = ["/images"] <->
       exists resp data s1,
         Client.fetch browser (JStr "/api/images") (submitInit formData) st
         = (Resolved resp, s1)
         /\ Client.json resp = Resolved data
         /\ Client.ok resp = true)
    /\ (Client.navigations t = ["/images"] /\ Client.consoleErrors t = []
        \/ Client.navigations t = [] /\ exists e, Client.consoleErrors t = [e]).
Proof.
  intros S browser st formData t. subst t.
  rewrite handleFormSubmit_run. cbv zeta.
  destruct (Client.fetch browser _ _ st) as [[resp | e] s1].
  - destruct (Client.json resp) as [data | e] eqn:Ej.
    + destruct (Client.ok resp) eqn:Eo; simpl.
      * split; [| left; split; reflexivity].
        split; [intros _ | reflexivity].
        exists resp, data, s1. repeat split; assumption.
      * split; [| right; split; [reflexivity | eexists; reflexivity]].
        split; [discriminate |].
        intros [resp' [data' [s' [Hf [_ Ho]]]]]. inversion Hf; subst. congruence.
    + simpl. split; [| right; split; [reflexivity | eexists; reflexivity]].
      split; [discriminate |].
      intros [resp' [data' [s' [Hf [Hj _]]]]]. inversion Hf; subst. congruence.
  - simpl. split; [| right; split; [reflexivity | eexists; reflexivity]].
    split; [discriminate |].
    intros [resp' [data' [s' [Hf _]]]]. discriminate Hf.
Qed.

(** X9: the form and the POST handler fit together.  The body the page sends
    is an object whose [ruled] is always a boolean (true exactly when the
    checkbox entry is "on"); given that body, the POST handler's first action
    is the renderer call with the form's text, that boolean and the form's
    color. *)
Theorem X9_form_body_reaches_renderer :
  forall (S B : Type) (sdk : Services S) (st : S) (browser : Client.Browser B) (bs : B)
         (formData : Client.FormData) (q : list (string * QueryValue)),
    let sent := Client.formBody formData in
    map (fun f => Client.init_body (snd f))
        (Client.fetches (Client.events (Client.handleFormSubmit browser formData bs)))
    = [Some sent]
    /\ getProp sent "ruled" = JBool (Client.isOn (formData "ruled"))
    /\ specIsBoolean (getProp sent "ruled") = true
    /\ exists outcome rest,
         trace (ImagesIndex.handler sdk {| method := "POST"; query := q; body := sent |} st)
         = Called (CRender (Client.entry (formData "text"))
                     {| ruled := JBool (Client.isOn (formData "ruled"));
                        outputType := "png/b64";
                        inkColor := Client.entry (formData "color") |}) outcome :: rest.
Proof.
  intros S B sdk st browser bs formData q sent. subst sent.
  split; [| split; [reflexivity | split; [reflexivity |]]].
  - rewrite handleFormSubmit_run. cbv zeta. unfold submitInit.
    destruct (Client.fetch browser _ _ bs) as [[resp | e] s1]; [| reflexivity].
    destruct (Client.json resp) as [data | e]; [| reflexivity].
    destruct (Client.ok resp); reflexivity.
  - rewrite (index_post_run sdk st
               {| method := "POST"; query := q; body := Client.formBody formData |}
               eq_refl eq_refl).
    cbv zeta. unfold renderOptions. simpl body.
    change (getProp (Client.formBody formData) "text") with (Client.entry (formData "text")).
    change (getProp (Client.formBody formData) "ruled")
      with (JBool (Client.isOn (formData "ruled"))).
    change (getProp (Client.formBody formData) "color")
      with (Client.entry (formData "color")).
    destruct (handwritten sdk _ _ st) as [[pages | e] s1];
      [ destruct (uploader_upload sdk _ _ s1) as [[v | e] s2] | ];
      eexists; eexists; reflexivity.
Qed.

Lemma X8_submit_navigates_iff_ok_witness :
  Client.navigations
    (Client.events
       (Client.handleFormSubmit
          (Client.always {| Client.ok := true;
                            Client.json := Resolved (successBody JNull);
                            Client.blob := Rejected JNull |})
          Client.filled tt))
  = ["/images"].
Proof.
  apply (proj2 (proj1 (X8_submit_navigates_iff_ok unit
           (Client.always {| Client.ok := true;
                             Client.json := Resolved (successBody JNull);
                             Client.blob := Rejected JNull |})
           tt Client.filled))).
  eexists; eexists; eexists. split; [reflexivity | split; reflexivity].
Defined.

(** X10: [getImages] calls [setImages] exactly when the [fetch] resolved
    with [response.ok], the body parsed, and neither the body nor its
    [result] is null or undefined; the new list is then
    [data.result.resources].  If the page renders with the new list nothing
    is logged; if the render throws, as it does on [images.length] when the
    list is undefined or null, that error is caught and logged by the same
    run.  When [setImages] is not called, exactly one error is logged. *)
Theorem X10_getImages_sets_resources :
  forall (S : Type) (browser : Client.Browser S) (rendering : JsVal -> option JsVal)
         (st : S),
    let t := Client.events (Client.getImages browser rendering st) in
    (forall v,
        Client.imagesSet t = [v] <->
        exists resp data s1,
          Client.fetch browser (JStr "/api/images") listInit st = (Resolved resp, s1)
          /\ Client.ok resp = true
          /\ Client.json resp = Resolved data
          /\ nullish data = false
          /\ nullish (getProp data "result") = false
          /\ v = getProp (getProp data "result") "resources")
    /\ ((exists v,
           Client.imagesSet t = [v]
           /\ Client.consoleErrors t
              = match Client.rerender rendering v with
                | Some e => [e]
                | None => []
                end)
        \/ Client.imagesSet t = [] /\ exists e, Client.consoleErrors t = [e])
    /\ (forall v,
          Client.imagesSet t = [v] ->
          nullish v = true ->
          exists e, Client.consoleErrors t = [e]).
Proof.
  intros S browser rendering st t. subst t.
  destruct (getImages_run browser rendering st) as [tail [Hrun Hcases]].
  rewrite Hrun. unfold Client.events. simpl snd.
  destruct (Client.fetch browser (JStr "/api/images") listInit st) as [p s1] eqn:Ef.
  simpl fst in Hcases.
  destruct Hcases as [[resp [data [Hp [Ho [Hj [Nd [Nr Htail]]]]]]] | [Hnot [e Htail]]];
    subst tail.
  - assert (Hset : Client.imagesSet
                     (Client.SetLoading true
                      :: Client.Fetched (JStr "/api/images") listInit (fst (p, s1))
                      :: (Client.SetImages (getProp (getProp data "result") "resources")
                          :: match Client.rerender rendering
                                     (getProp (getProp data "result") "resources") with
                             | Some e => [Client.ConsoleError e]
                             | None => []
                             end) ++ [Client.SetLoading false])%list
                   = [getProp (getProp data "result") "resources"])
      by (destruct (Client.rerender rendering _); reflexivity).
    assert (Herr : Client.consoleErrors
                     (Client.SetLoading true
                      :: Client.Fetched (JStr "/api/images") listInit (fst (p, s1))
                      :: (Client.SetImages (getProp (getProp data "result") "resources")
                          :: match Client.rerender rendering
                                     (getProp (getProp data "result") "resources") with
                             | Some e => [Client.ConsoleError e]
                             | None => []
                             end) ++ [Client.SetLoading false])%list
                   = match Client.rerender rendering
                             (getProp (getProp data "result") "resources") with
                     | Some e => [e]
                     | None => []
                     end)
      by (destruct (Client.rerender rendering _); reflexivity).
    rewrite Hset, Herr. split; [| split].
    + intro v. split.
      * intro H. inversion H; subst.
        exists resp, data, s1. repeat split; assumption.
      * intros [resp' [data' [s' [Hf [_ [Hj' [_ [_ Hv]]]]]]]].
        assert (Hresp : resp' = resp) by congruence. subst resp'.
        assert (Hdata : data' = data) by congruence. subst data'.
        rewrite Hv. reflexivity.
    + left. eexists. split; reflexivity.
    + intros v Hv Hn. inversion Hv; subst v.
      destruct (getProp (getProp data "result") "resources");
        try discriminate Hn; eexists; reflexivity.
  - simpl. split; [| split].
    + intro v. split; [discriminate |].
      intros [resp' [data' [s' [Hf [Ho [Hj [Nd [Nr _]]]]]]]].
      assert (Hp : p = Resolved resp') by congruence.
      destruct (Hnot resp' data' Hp Ho Hj Nd Nr).
    + right. split; [reflexivity | exists e; reflexivity].
    + intros v H; discriminate H.
Qed.

Lemma X10_getImages_sets_resources_witness :
  let listing := JObj [("resources", JArr [JObj [("public_id", JStr "text-to-handwriting/img0")]])] in
  let bare := JObj [("total", JNum 0)] in
  let showing (result : JsVal) :=
    Client.events
      (Client.getImages
         (Client.always {| Client.ok := true;
                           Client.json := Resolved (successBody result);
                           Client.blob := Rejected JNull |})
         (fun _ => None) tt) in
  Client.imagesSet (showing listing)
  = [JArr [JObj [("public_id", JStr "text-to-handwriting/img0")]]]
  /\ exists e, Client.consoleErrors (showing bare) = [e].
Proof.
  intros listing bare showing. split.
  - apply (proj2 (proj1 (X10_getImages_sets_resources unit
             (Client.always {| Client.ok := true;
                               Client.json := Resolved (successBody listing);
                               Client.blob := Rejected JNull |})
             (fun _ => None) tt) _)).
    eexists; eexists; eexists.
    split; [reflexivity |]. split; [reflexivity |]. split; [reflexivity |].
    split; [reflexivity |]. split; reflexivity.
  - apply (proj2 (proj2 (X10_getImages_sets_resources unit
             (Client.always {| Client.ok := true;
                               Client.json := Resolved (successBody bare);
                               Client.blob := Rejected JNull |})
             (fun _ => None) tt)) JUndefined); reflexivity.
Defined.

(** X11: [getImages] and [handleDownloadResource] never throw, begin with
    [setLoading(true)], end with [setLoading(false)] and leave the flag
    alone in between, on every outcome of the network and of the render.
    [handleDelete] never throws either and has the same first and last
    action; but when the delete succeeded, the [getImages()] it calls
    without [await] has by then called [setLoading(true)] again and issued
    its request, so the final [setLoading(false)] of [handleDelete] comes
    while the refresh is still pending.  The remainder of the refresh ends
    with [setLoading(false)] in its turn. *)
Theorem X11_loading_frame :
  forall (S : Type) (browser : Client.Browser S) (rendering : JsVal -> option JsVal)
         (st : S) (url : JsVal) (id : string),
    let framed (r : Completion unit * S * list Client.UiEvent) :=
      Client.result r = Normal tt
      /\ exists middle,
           Client.events r
           = (Client.SetLoading true :: middle ++ [Client.SetLoading false])%list
           /\ forall b, ~ In (Client.SetLoading b) middle in
    framed (Client.getImages browser rendering st)
    /\ framed (Client.handleDownloadResource browser url st)
    /\ (let r := Client.handleDelete browser id st in
        exists pending middle,
          Client.result r = Normal pending
          /\ Client.events r
             = (Client.SetLoading true :: middle ++ [Client.SetLoading false])%list
          /\ match pending with
             | None => forall b, ~ In (Client.SetLoading b) middle
             | Some p =>
                 exists outcome,
                   middle
                   = [Client.Fetched (JStr ("/api/images/" ++ id)) deleteInit outcome;
                      Client.SetLoading true;
                      Client.Fetched (JStr "/api/images") listInit p]
                   /\ exists tail,
                        Client.events (Client.getImagesResume rendering p
                                         (snd (fst r)))
                        = (tail ++ [Client.SetLoading false])%list
                        /\ forall b, ~ In (Client.SetLoading b) tail
             end).
Proof.
  intros S browser rendering st url id framed. subst framed. cbv beta.
  assert (Hno : forall (middle : list Client.UiEvent),
             Forall (fun ev => match ev with Client.SetLoading _ => False | _ => True end)
                    middle ->
             forall b, ~ In (Client.SetLoading b) middle).
  { intros middle HF b Hin. rewrite Forall_forall in HF. exact (HF _ Hin). }
  assert (Hframe : forall (s' : S) (middle : list Client.UiEvent),
             Forall (fun ev => match ev with Client.SetLoading _ => False | _ => True end)
                    middle ->
             Client.result (S := S) (Normal tt, s',
               (Client.SetLoading true :: middle ++ [Client.SetLoading false])%list)
             = Normal tt
             /\ exists middle',
                  Client.events (S := S) (A := unit) (Normal tt, s',
                    (Client.SetLoading true :: middle ++ [Client.SetLoading false])%list)
                  = (Client.SetLoading true :: middle' ++ [Client.SetLoading false])%list
                  /\ forall b, ~ In (Client.SetLoading b) middle').
  { intros s' middle HF. split; [reflexivity |].
    exists middle. split; [reflexivity | apply Hno; exact HF]. }
  assert (Htail : forall (p : Settled Client.Response) (s : S),
             exists tail,
               Client.events (Client.getImagesResume rendering p s)
               = (tail ++ [Client.SetLoading false])%list
               /\ Forall (fun ev => match ev with
                                    | Client.SetLoading _ => False
                                    | _ => True
                                    end) tail).
  { intros p s.
    destruct (getImagesResume_cases rendering p s) as [tail [Hrun Hcases]].
    exists tail. rewrite Hrun. split; [reflexivity |].
    destruct Hcases as [[resp [data [_ [_ [_ [_ [_ ->]]]]]]] | [_ [e ->]]].
    - destruct (Client.rerender rendering _); repeat constructor.
    - repeat constructor. }
  split; [| split].
  - rewrite getImages_split.
    unfold Client.andThen at 1. unfold Client.getImagesStart, Client.andThen,
      Client.issueFetch, Client.ui.
    destruct (Client.fetch browser _ _ st) as [p s1].
    destruct (getImagesResume_cases rendering p s1) as [tail [Hrun Hcases]].
    rewrite Hrun.
    apply (Hframe s1 (Client.Fetched _ _ p :: tail)).
    constructor; [exact I |].
    destruct Hcases as [[resp [data [_ [_ [_ [_ [_ ->]]]]]]] | [_ [e ->]]].
    + destruct (Client.rerender rendering _); repeat constructor.
    + repeat constructor.
  - rewrite handleDownloadResource_run.
    destruct (Client.fetch browser _ _ st) as [[resp | e] s1].
    + cbv zeta. destruct (Client.ok resp).
      * destruct (Client.blob resp) as [b | e].
        -- destruct (Client.createObjectURL browser b s1) as [u s2].
           apply (Hframe s2 [_; _; _; _]). repeat constructor.
        -- apply (Hframe s1 [_; _]). repeat constructor.
      * destruct (Client.json resp) as [data | e];
          apply (Hframe s1 [_; _]); repeat constructor.
    + apply (Hframe s1 [_; _]). repeat constructor.
  - cbv zeta. rewrite handleDelete_run. cbv zeta.
    destruct (Client.fetch browser _ _ st) as [[resp | e] s1].
    + destruct (Client.json resp) as [data | e].
      * destruct (Client.ok resp).
        -- destruct (Client.fetch browser (JStr "/api/images") listInit s1) as [p s2].
           exists (Some p),
             [Client.Fetched (JStr ("/api/images/" ++ id)) deleteInit (Resolved resp);
              Client.SetLoading true;
              Client.Fetched (JStr "/api/images") listInit p].
           split; [reflexivity |].
           split; [reflexivity |].
           exists (Resolved resp). split; [reflexivity |].
           destruct (Htail p s2) as [tail [Hev HF]].
           exists tail. split; [exact Hev | apply Hno; exact HF].
        -- exists None, [Client.Fetched (JStr ("/api/images/" ++ id)) deleteInit
                           (Resolved resp)].
           split; [reflexivity | split; [reflexivity |]].
           apply Hno. repeat constructor.
      * exists None, [Client.Fetched (JStr ("/api/images/" ++ id)) deleteInit
                         (Resolved resp)].
        split; [reflexivity | split; [reflexivity |]].
        apply Hno. repeat constructor.
    + exists None, [Client.Fetched (JStr ("/api/images/" ++ id)) deleteInit (Rejected e)].
      split; [reflexivity | split; [reflexivity |]].
      apply Hno. repeat constructor.
Qed.

(** X12: [handleDelete] first issues a DELETE to "/api/images/" followed by
    the identifier as given.  When that [fetch] resolved, the body parsed
    and [response.ok] held, it starts the refresh: a second request, the GET
    of /api/images, is issued before [handleDelete] returns and is left
    pending.  In every other case the DELETE is the only request.
    [handleDelete] itself never logs: every failure of the delete is
    swallowed. *)
Theorem X12_delete_silent_refresh_iff_ok :
  forall (S : Type) (browser : Client.Browser S) (st : S) (id : string),
    let r := Client.handleDelete browser id st in
    let t := Client.events r in
    let delete :=
      (JStr ("/api/images/" ++ id),
       {| Client.init_method := Some "DELETE"; Client.init_body := None;
          Client.init_headers := [] |}) in
    let refresh :=
      (JStr "/api/images",
       {| Client.init_method := Some "GET"; Client.init_body := None;
          Client.init_headers := [] |}) in
    Client.consoleErrors t = []
    /\ ((exists resp data s1,
           Client.fetch browser (fst delete) (snd delete) st = (Resolved resp, s1)
           /\ Client.json resp = Resolved data
           /\ Client.ok resp = true
           /\ Client.result r
              = Normal (Some (fst (Client.fetch browser (fst refresh) (snd refresh) s1)))
           /\ Client.fetches t = [delete; refresh])
        \/ ((forall resp data s1,
               Client.fetch browser (fst delete) (snd delete) st = (Resolved resp, s1) ->
               Client.json resp = Resolved data ->
               Client.ok resp = true -> False)
            /\ Client.result r = Normal None
            /\ Client.fetches t = [delete])).
Proof.
  intros S browser st id r t delete refresh. subst r t delete refresh.
  rewrite handleDelete_run. cbv zeta. unfold deleteInit, listInit. simpl fst. simpl snd.
  destruct (Client.fetch browser _ _ st) as [[resp | e] s1].
  - destruct (Client.json resp) as [data | e] eqn:Ej.
    + destruct (Client.ok resp) eqn:Eo.
      * destruct (Client.fetch browser (JStr "/api/images") _ s1) as [p s2] eqn:Eg.
        split; [reflexivity |]. left.
        exists resp, data, s1. rewrite Eg.
        repeat split; try assumption; reflexivity.
      * split; [reflexivity |]. right. split; [| split; reflexivity].
        intros resp' data' s' Hf _ Ho. inversion Hf; subst. congruence.
    + split; [reflexivity |]. right. split; [| split; reflexivity].
      intros resp' data' s' Hf Hj _. inversion Hf; subst. congruence.
  - split; [reflexivity |]. right. split; [| split; reflexivity].
    intros resp' data' s' Hf. discriminate Hf.
Qed.

Lemma X12_delete_silent_refresh_iff_ok_witness :
  let r :=
    Client.handleDelete
      (Client.always {| Client.ok := true;
                        Client.json := Resolved (successBody JNull);
                        Client.blob := Rejected JNull |})
      "text-to-handwriting/img0" tt in
  Client.consoleErrors (Client.events r) = []
  /\ map fst (Client.fetches (Client.events r))
     = [JStr "/api/images/text-to-handwriting/img0"; JStr "/api/images"].
Proof.
  intro r.
  split.
  - exact (proj1 (X12_delete_silent_refresh_iff_ok unit
             (Client.always {| Client.ok := true;
                               Client.json := Resolved (successBody JNull);
                               Client.blob := Rejected JNull |})
             tt "text-to-handwriting/img0")).
  - reflexivity.
Defined.

(** X13: [handleDownloadResource] clicks the download anchor exactly when
    the [fetch] resolved with [response.ok] and the blob could be read.  The
    anchor then points at the object URL of that blob, is always named
    "my-virtual-tag.png", and is removed after the click; nothing is logged.
    In every other case no anchor is created and exactly one error is
    logged. *)
Theorem X13_download_anchor :
  forall (S : Type) (browser : Client.Browser S) (st : S) (url : JsVal),
    let t := Client.events (Client.handleDownloadResource browser url st) in
    let success :=
      exists resp b s1,
        Client.fetch browser url plainInit st = (Resolved resp, s1)
        /\ Client.ok resp = true
        /\ Client.blob resp = Resolved b
        /\ t = [Client.SetLoading true;
                Client.Fetched url plainInit (Resolved resp);
                Client.AnchorAppended (fst (Client.createObjectURL browser b s1))
                  "my-virtual-tag.png";
                Client.AnchorClicked; Client.AnchorRemoved;
                Client.SetLoading false] in
    (In Client.AnchorClicked t <-> success)
    /\ (In Client.AnchorClicked t /\ Client.consoleErrors t = []
        \/ (forall href name, ~ In (Client.AnchorAppended href name) t)
           /\ ~ In Client.AnchorClicked t
           /\ exists e, Client.consoleErrors t = [e]).
Proof.
  intros S browser st url t success. subst t success.
  rewrite handleDownloadResource_run.
  destruct (Client.fetch browser url plainInit st) as [[resp | e] s1] eqn:Ef.
  - cbv zeta. destruct (Client.ok resp) eqn:Eo.
    + destruct (Client.blob resp) as [b | e] eqn:Eb.
      * destruct (Client.createObjectURL browser b s1) as [u s2] eqn:Eu. simpl.
        split.
        -- split; [intros _ | intros _; right; right; right; left; reflexivity].
           exists resp, b, s1. rewrite Eu. repeat split; try assumption; reflexivity.
        -- left. split; [right; right; right; left; reflexivity | reflexivity].
      * simpl. split.
        -- split.
           ++ intros [H | [H | [H | [H | []]]]]; discriminate H.
           ++ intros [resp' [b' [s' [Hf [_ [Hb _]]]]]]. inversion Hf; subst. congruence.
        -- right. split; [| split].
           ++ intros href name [H | [H | [H | [H | []]]]]; discriminate H.
           ++ intros [H | [H | [H | [H | []]]]]; discriminate H.
           ++ eexists; reflexivity.
    + assert (Hfail : forall (resp' : Client.Response) (s' : S),
                 (Resolved resp, s1) = (Resolved resp', s') ->
                 Client.ok resp' = true -> False)
        by (intros resp' s' Hf Ho; inversion Hf; subst; congruence).
      destruct (Client.json resp) as [data | e]; simpl; (split; [split |]).
      * intros [H | [H | [H | [H | []]]]]; discriminate H.
      * intros [resp' [b' [s' [Hf [Ho _]]]]]. destruct (Hfail resp' s' Hf Ho).
      * right. split; [| split].
        -- intros href name [H | [H | [H | [H | []]]]]; discriminate H.
        -- intros [H | [H | [H | [H | []]]]]; discriminate H.
        -- eexists; reflexivity.
      * intros [H | [H | [H | [H | []]]]]; discriminate H.
      * intros [resp' [b' [s' [Hf [Ho _]]]]]. destruct (Hfail resp' s' Hf Ho).
      * right. split; [| split].
        -- intros href name [H | [H | [H | [H | []]]]]; discriminate H.
        -- intros [H | [H | [H | [H | []]]]]; discriminate H.
        -- eexists; reflexivity.
  - simpl. split; [split |].
    + intros [H | [H | [H | [H | []]]]]; discriminate H.
    + intros [resp' [b' [s' [Hf _]]]]. discriminate Hf.
    + right. split; [| split].
      * intros href name [H | [H | [H | [H | []]]]]; discriminate H.
      * intros [H | [H | [H | [H | []]]]]; discriminate H.
      * eexists; reflexivity.
Qed.



(** X15: for every value of the [loading] flag and every number of images,
    the images page shows exactly one of its three blocks: the gallery when
    there are images, "Loading..." when there are none and a request is
    running, "No Images Yet" when there are none and nothing is running. *)
Theorem X15_exactly_one_block :
  forall (loading : bool) (count : nat),
    (Client.showsGallery loading count,
     Client.showsLoading loading count,
     Client.showsNoImages loading count)
    = match count, loading with
      | Datatypes.S _, _ => (true, false, false)
      | O, true => (false, true, false)
      | O, false => (false, false, true)
      end.
Proof.
  intros loading count.
  unfold Client.showsGallery, Client.showsLoading, Client.showsNoImages.
  destruct count as [| n], loading; reflexivity.
Qed.

Lemma X2_logged_iff_error_response_witness :
  In Demo.unavailable
     (logged (trace (serve Demo.sdk ApiImages Demo.get Demo.offline))).
Proof.
  apply (proj2 (proj1 (X2_logged_iff_error_response Demo.World Demo.sdk Demo.offline
                         ApiImages Demo.get) Demo.unavailable)).
  reflexivity.
Defined.

Lemma X13_download_anchor_witness :
  In Client.AnchorClicked
     (Client.events
        (Client.handleDownloadResource
           (Client.always {| Client.ok := true;
                             Client.json := Rejected JNull;
                             Client.blob := Resolved (Client.mkBlob "png") |})
           (JStr "https://res.cloudinary.com/demo/image/upload/text-to-handwriting/img0.png")
           tt)).
Proof.
  apply (proj2 (proj1 (X13_download_anchor unit
           (Client.always {| Client.ok := true;
                             Client.json := Rejected JNull;
                             Client.blob := Resolved (Client.mkBlob "png") |})
           tt
           (JStr "https://res.cloudinary.com/demo/image/upload/text-to-handwriting/img0.png")))).
  eexists; eexists; eexists.
  split; [reflexivity |]. split; [reflexivity |]. split; reflexivity.
Defined.
